(** * eval-hub: the model server registry and the overall-status rules

    A shallow embedding of [eval_hub/services/model_service.py]
    (class [ModelService]) together with the status derivation exercised by
    [tests/unit/test_response_builder.py].

    Conventions of the embedding:
    - a Python [str] is a [string]; characters are the code points 0..255;
    - a [dict] keyed by [str] is a [gmap string _];
    - [os.environ] is the list of its items, in iteration order;
    - [utcnow()] reads a clock, modelled as the stream of its future readings;
    - a method is a function from the process and the service object to an
      outcome (returned value or raised exception) and the new process and
      service object. *)

From Stdlib Require Import ZArith Ascii String List Bool Lia.
From stdpp Require Import base option list gmap strings fin_maps countable.

Local Open Scope Z_scope.
Local Open Scope list_scope.
Local Open Scope stdpp_scope.

(** ** Python string operations used by the service *)

Module PyStr.

(** [s.startswith(p)] *)
Definition startswith (s p : string) : bool := String.prefix p s.

(** [s.endswith(suffix)] *)
Fixpoint endswith (s suffix : string) : bool :=
  if String.eqb s suffix then true
  else match s with
       | EmptyString => false
       | String _ s' => endswith s' suffix
       end.

(** [sub in s] *)
Fixpoint contains (sub s : string) : bool :=
  if String.prefix sub s then true
  else match s with
       | EmptyString => false
       | String _ s' => contains sub s'
       end.

(** [str.isspace] on one character of the range 0..255: the characters
    [\t \n \v \f \r], the separators 0x1c..0x1f, the space, NEL (0x85) and
    the no-break space (0xa0). *)
Definition isspace (c : ascii) : bool :=
  let n := nat_of_ascii c in
  ((9 <=? n) && (n <=? 13) || (28 <=? n) && (n <=? 32)
   || (n =? 133) || (n =? 160))%nat.

Fixpoint lstrip (s : string) : string :=
  match s with
  | EmptyString => EmptyString
  | String c s' => if isspace c then lstrip s' else s
  end.

Fixpoint rstrip (s : string) : string :=
  match s with
  | EmptyString => EmptyString
  | String c s' =>
      match rstrip s' with
      | EmptyString => if isspace c then EmptyString else String c EmptyString
      | r => String c r
      end
  end.

(** [s.strip()] *)
Definition strip (s : string) : string := rstrip (lstrip s).

(** [str.lower] on one character of the range 0..255: the letters A..Z and
    the capital letters 0xc0..0xde of Latin-1 (the multiplication sign 0xd7
    is no letter). *)
Definition lower_char (c : ascii) : ascii :=
  let n := nat_of_ascii c in
  if ((65 <=? n) && (n <=? 90)
      || (192 <=? n) && (n <=? 222) && negb (n =? 215))%nat
  then ascii_of_nat (n + 32) else c.

(** [s.lower()] *)
Fixpoint lower (s : string) : string :=
  match s with
  | EmptyString => EmptyString
  | String c s' => String (lower_char c) (lower s')
  end.

(** [s.split(sep)] for a separator of one character *)
Fixpoint split (sep : ascii) (s : string) : list string :=
  match s with
  | EmptyString => [EmptyString]
  | String c s' =>
      if Ascii.eqb c sep then EmptyString :: split sep s'
      else match split sep s' with
           | h :: t => String c h :: t
           | [] => [String c EmptyString]
           end
  end.

(** Truth value of a string: [bool(s)] *)
Definition truthy (s : string) : bool :=
  match s with EmptyString => false | _ => true end.

Definition newline : ascii := ascii_of_nat 10.

(** The group of the pattern [(.+)_URL] matched at the start of [t], as
    [re.match] finds it: [.] is any character but the newline, [+] is
    greedy, so the group is the longest non-empty newline-free prefix of
    [t] that is followed by [_URL]. *)
Fixpoint group_before_URL (t : string) : option string :=
  match t with
  | EmptyString => None
  | String c t' =>
      if Ascii.eqb c newline then None
      else match group_before_URL t' with
           | Some g => Some (String c g)
           | None =>
               if String.prefix "_URL" t' then Some (String c EmptyString)
               else None
           end
  end.

(** Removes the first [n] characters: [s[n:]] *)
Fixpoint drop (n : nat) (s : string) : string :=
  match n, s with
  | O, _ => s
  | S n', String _ s' => drop n' s'
  | S _, EmptyString => EmptyString
  end.

(** [re.match(prefix + "(.+)_URL", s)]: [Some (group 1)] on a match.  The
    prefix is a literal without special characters. *)
Definition re_match_URL (prefix s : string) : option string :=
  if String.prefix prefix s
  then group_before_URL (drop (String.length prefix) s)
  else None.

End PyStr.

(** ** Data model (eval_hub/models/model.py)

    The module is not among the sources; the records have the fields the
    service passes to the constructors, and a constructor is taken to accept
    every value of its fields. *)

(** Modelled from the spec: the enum [ModelStatus] of models/model.py, which
    is not among the sources; section 3 gives its values as active, inactive
    and unknown. *)
Inductive ModelStatus := ACTIVE | INACTIVE | UNKNOWN.

(** A member of the string-valued enum [ModelType] is represented by its
    value; which strings are values of the enum is a parameter of the loader
    (see [ModelType_of]). *)
Definition ModelType := string.

Definition OPENAI_COMPATIBLE : ModelType := "openai-compatible".

(** The server-specific configuration is opaque to the service. *)
Definition ServerConfig := list (string * string).

(** Timestamps, as readings of the clock. *)
Definition datetime := Z.

Record ServerModel := {
  model_name : string;
  description : option string;
  model_status : ModelStatus;
  model_tags : list string
}.

Record ModelServer := {
  server_id : string;
  server_type : ModelType;
  base_url : string;
  api_key_required : bool;
  models : list ServerModel;
  server_config : option ServerConfig;
  status : ModelStatus;
  tags : list string;
  created_at : datetime;
  updated_at : datetime
}.

Record ModelServerRegistrationRequest := {
  req_server_id : string;
  req_server_type : ModelType;
  req_base_url : string;
  req_api_key_required : bool;
  req_models : option (list ServerModel);
  req_server_config : option ServerConfig;
  req_status : ModelStatus;
  req_tags : list string
}.

Record ModelServerUpdateRequest := {
  upd_base_url : option string;
  upd_api_key_required : option bool;
  upd_models : option (list ServerModel);
  upd_server_config : option ServerConfig;
  upd_status : option ModelStatus;
  upd_tags : option (list string)
}.

(** ** The process: environment, clock and log *)

Inductive LogLevel := INFO | WARNING.

Inductive LogValue := LogStr (s : string) | LogInt (n : nat).

Record LogRecord := {
  level : LogLevel;
  event : string;
  fields : list (string * LogValue)
}.

(** The clock is the stream of the readings still to come. *)
Definition Clock := nat -> datetime.

Record Process := {
  environ : list (string * string);
  clock : Clock;
  log : list LogRecord
}.

(** [os.getenv(key)] *)
Fixpoint lookup_env (items : list (string * string)) (key : string)
  : option string :=
  match items with
  | [] => None
  | (k, v) :: rest => if String.eqb k key then Some v else lookup_env rest key
  end.

Definition getenv (p : Process) (key : string) : option string :=
  lookup_env (environ p) key.

(** [os.getenv(key, default)] *)
Definition getenv_or (p : Process) (key dflt : string) : string :=
  match getenv p key with Some v => v | None => dflt end.

(** [utils.utcnow()] *)
Definition utcnow (p : Process) : datetime * Process :=
  (clock p 0%nat,
   {| environ := environ p; clock := fun n => clock p (S n); log := log p |}).

Definition emit (r : LogRecord) (p : Process) : Process :=
  {| environ := environ p; clock := clock p; log := log p ++ [r] |}.

Definition logger_info (ev : string) (kw : list (string * LogValue))
  (p : Process) : Process :=
  emit {| level := INFO; event := ev; fields := kw |} p.

Definition logger_warning (ev : string) (p : Process) : Process :=
  emit {| level := WARNING; event := ev; fields := [] |} p.

(** Another part of the program, or the operator, changes the environment. *)
Definition set_environ (items : list (string * string)) (p : Process)
  : Process :=
  {| environ := items; clock := clock p; log := log p |}.

(** ** The service object *)

Record ModelService := {
  _registered_servers : gmap string ModelServer;
  _runtime_servers : gmap string ModelServer;
  _initialized : bool
}.

(** [ModelService(settings)]: the object after [__init__]. *)
Definition new_service : ModelService :=
  {| _registered_servers := ∅; _runtime_servers := ∅; _initialized := false |}.

Inductive exn := ValueError (message : string).

Inductive outcome (A : Type) :=
| Returned (a : A)
| Raised (e : exn).
Arguments Returned {A} a.
Arguments Raised {A} e.

(** ** The environment server loader, [ModelService._load_runtime_servers] *)

Section Loader.

(** The values of the enum [ModelType] (models/model.py is not among the
    sources): [is_ModelType v] says that [ModelType(v)] succeeds. *)
Variable is_ModelType : string -> bool.

(** [ModelType(value)]; [None] stands for the [ValueError]. *)
Definition ModelType_of (value : string) : option ModelType :=
  if is_ModelType value then Some value else None.

(** [ServerModel(model_name=..., description=None, status=ACTIVE,
    tags=["runtime"])], as all three patterns build it. *)
Definition runtime_model (name : string) : ServerModel :=
  {| model_name := name; description := None;
     model_status := ACTIVE; model_tags := ["runtime"] |}.

(** [[m.strip() for m in models_str.split(",") if m.strip()] if models_str
    else []], then the default [[server_id]] when the list is empty. *)
Definition parse_model_names (models_str sid : string) : list string :=
  let model_names :=
    if PyStr.truthy models_str
    then map PyStr.strip
           (List.filter (fun m => PyStr.truthy (PyStr.strip m))
              (PyStr.split "," models_str))
    else [] in
  match model_names with
  | [] => [sid]
  | _ => model_names
  end.

(** [ModelServer(..., api_key_required=True, status=ACTIVE,
    tags=["runtime"], created_at=utcnow(), updated_at=utcnow())]: the two
    timestamps are two readings of the clock. *)
Definition runtime_server (sid : string) (ty : ModelType) (url : string)
  (ms : list ServerModel) (p : Process) : ModelServer * Process :=
  let '(created, p) := utcnow p in
  let '(updated, p) := utcnow p in
  ({| server_id := sid; server_type := ty; base_url := url;
      api_key_required := true; models := ms; server_config := None;
      status := ACTIVE; tags := ["runtime"];
      created_at := created; updated_at := updated |}, p).

(** The state of one run of the loader: the process and the local
    dictionary [runtime_servers]. *)
Definition LoaderState := (Process * gmap string ModelServer)%type.

(** Simple pattern: MODEL_SERVER_URL and its companions. *)
Definition load_simple (st : LoaderState) : LoaderState :=
  let '(p, runtime_servers) := st in
  match getenv p "MODEL_SERVER_URL" with
  | None => st
  | Some model_server_url =>
      if PyStr.truthy model_server_url then
        let model_server_url := PyStr.strip model_server_url in
        if PyStr.truthy model_server_url then
          let sid := getenv_or p "MODEL_SERVER_ID" "default" in
          let model_type_str :=
            getenv_or p "MODEL_SERVER_TYPE" "openai-compatible" in
          let models_str := getenv_or p "MODEL_SERVER_MODELS" "" in
          let '(ty, p) :=
            match ModelType_of (PyStr.lower model_type_str) with
            | Some ty => (ty, p)
            | None =>
                (OPENAI_COMPATIBLE,
                 logger_warning
                   ("Invalid server type '" +:+ model_type_str +:+
                    "' for MODEL_SERVER_TYPE, " +:+
                    "using default 'openai-compatible'") p)
            end in
          let server_models :=
            map runtime_model (parse_model_names models_str sid) in
          let '(server, p) :=
            runtime_server sid ty model_server_url server_models p in
          let runtime_servers := <[sid := server]> runtime_servers in
          let p :=
            logger_info
              "Loaded runtime server from MODEL_SERVER_URL environment variable"
              [("server_id", LogStr sid); ("server_type", LogStr ty);
               ("base_url", LogStr model_server_url);
               ("model_count", LogInt (length server_models))] p in
          (p, runtime_servers)
        else st
      else st
  end.

(** Namespaced pattern: the body of the loop over [os.environ.items()] for
    the variables EVAL_HUB_MODEL_SERVER_<SERVER_ID>_URL. *)
Definition namespaced_step (st : LoaderState) (item : string * string)
  : LoaderState :=
  let '(p, runtime_servers) := st in
  let '(env_var, env_value) := item in
  if PyStr.startswith env_var "EVAL_HUB_MODEL_SERVER_"
     && PyStr.endswith env_var "_URL" then
    match PyStr.re_match_URL "EVAL_HUB_MODEL_SERVER_" env_var with
    | None => st
    | Some group1 =>
        let sid := PyStr.lower group1 in
        let url := PyStr.strip env_value in
        if negb (PyStr.truthy url) then
          (logger_warning
             ("Empty URL for runtime server " +:+ sid +:+ ", skipping") p,
           runtime_servers)
        else
          let type_var := "EVAL_HUB_MODEL_SERVER_" +:+ group1 +:+ "_TYPE" in
          let models_var :=
            "EVAL_HUB_MODEL_SERVER_" +:+ group1 +:+ "_MODELS" in
          let id_var := "EVAL_HUB_MODEL_SERVER_" +:+ group1 +:+ "_ID" in
          let sid := getenv_or p id_var sid in
          let model_type_str := getenv_or p type_var "openai-compatible" in
          let models_str := getenv_or p models_var "" in
          let '(ty, p) :=
            match ModelType_of (PyStr.lower model_type_str) with
            | Some ty => (ty, p)
            | None =>
                (OPENAI_COMPATIBLE,
                 logger_warning
                   ("Invalid server type '" +:+ model_type_str +:+
                    "' for runtime server " +:+ sid +:+ ", " +:+
                    "using default 'openai-compatible'") p)
            end in
          let server_models :=
            map runtime_model (parse_model_names models_str sid) in
          let '(server, p) := runtime_server sid ty url server_models p in
          let runtime_servers := <[sid := server]> runtime_servers in
          let p :=
            logger_info "Loaded runtime server from environment"
              [("server_id", LogStr sid); ("server_type", LogStr ty);
               ("base_url", LogStr url);
               ("model_count", LogInt (length server_models))] p in
          (p, runtime_servers)
    end
  else st.

(** Legacy pattern: the body of the loop over [os.environ.items()] for the
    variables EVAL_HUB_MODEL_<ID>_URL whose name does not contain SERVER.
    The test [server_id in runtime_servers] is made on the identifier
    derived from the name, before the _ID variable is consulted. *)
Definition legacy_step (st : LoaderState) (item : string * string)
  : LoaderState :=
  let '(p, runtime_servers) := st in
  let '(env_var, env_value) := item in
  if PyStr.startswith env_var "EVAL_HUB_MODEL_"
     && PyStr.endswith env_var "_URL"
     && negb (PyStr.contains "SERVER" env_var) then
    match PyStr.re_match_URL "EVAL_HUB_MODEL_" env_var with
    | None => st
    | Some group1 =>
        let sid := PyStr.lower group1 in
        if bool_decide (is_Some (runtime_servers !! sid)) then st
        else
          let url := PyStr.strip env_value in
          if negb (PyStr.truthy url) then st
          else
            let type_var := "EVAL_HUB_MODEL_" +:+ group1 +:+ "_TYPE" in
            let id_var := "EVAL_HUB_MODEL_" +:+ group1 +:+ "_ID" in
            let sid := getenv_or p id_var sid in
            let model_type_str := getenv_or p type_var "openai-compatible" in
            let ty :=
              match ModelType_of (PyStr.lower model_type_str) with
              | Some ty => ty
              | None => OPENAI_COMPATIBLE
              end in
            let '(server, p) :=
              runtime_server sid ty url [runtime_model sid] p in
            let runtime_servers := <[sid := server]> runtime_servers in
            let p :=
              logger_info
                "Loaded runtime server from legacy environment variable"
                [("server_id", LogStr sid); ("base_url", LogStr url)] p in
            (p, runtime_servers)
    end
  else st.

(** The three patterns in the order of the source, from an empty
    dictionary. *)
Definition load_servers (p : Process) : LoaderState :=
  let st := load_simple (p, ∅) in
  let st := fold_left namespaced_step (environ p) st in
  fold_left legacy_step (environ p) st.

(** [self._load_runtime_servers()]: the result replaces
    [self._runtime_servers]. *)
Definition _load_runtime_servers (p : Process) (self : ModelService)
  : Process * ModelService :=
  let '(p, runtime_servers) := load_servers p in
  (p, {| _registered_servers := _registered_servers self;
         _runtime_servers := runtime_servers;
         _initialized := _initialized self |}).

End Loader.

(** ** The registry: the public methods of [ModelService] *)

Section Registry.

Variable is_ModelType : string -> bool.

Definition set_runtime (rt : gmap string ModelServer) (self : ModelService)
  : ModelService :=
  {| _registered_servers := _registered_servers self;
     _runtime_servers := rt;
     _initialized := _initialized self |}.

Definition set_registered (rg : gmap string ModelServer)
  (self : ModelService) : ModelService :=
  {| _registered_servers := rg;
     _runtime_servers := _runtime_servers self;
     _initialized := _initialized self |}.

Definition set_initialized (b : bool) (self : ModelService) : ModelService :=
  {| _registered_servers := _registered_servers self;
     _runtime_servers := _runtime_servers self;
     _initialized := b |}.

(** [self._initialize()] *)
Definition _initialize (p : Process) (self : ModelService)
  : Process * ModelService :=
  if _initialized self then (p, self)
  else
    let '(p, self) := _load_runtime_servers is_ModelType p self in
    let self := set_initialized true self in
    let p :=
      logger_info "Model service initialized"
        [("registered_servers", LogInt (size (_registered_servers self)));
         ("runtime_servers", LogInt (size (_runtime_servers self)))] p in
    (p, self).

(** [self.register_server(request)] *)
Definition register_server (p : Process) (self : ModelService)
  (request : ModelServerRegistrationRequest)
  : outcome ModelServer * Process * ModelService :=
  let '(p, self) := _initialize p self in
  let sid := req_server_id request in
  if bool_decide (is_Some (_registered_servers self !! sid)) then
    (Raised (ValueError
               ("Server with ID '" +:+ sid +:+ "' already exists")),
     p, self)
  else if bool_decide (is_Some (_runtime_servers self !! sid)) then
    (Raised (ValueError
               ("Server with ID '" +:+ sid +:+
                "' is specified as runtime server via environment variable")),
     p, self)
  else
    let '(now, p) := utcnow p in
    let server :=
      {| server_id := sid;
         server_type := req_server_type request;
         base_url := req_base_url request;
         api_key_required := req_api_key_required request;
         models := default [] (req_models request);
         server_config := req_server_config request;
         status := req_status request;
         tags := req_tags request;
         created_at := now;
         updated_at := now |} in
    let self :=
      set_registered (<[sid := server]> (_registered_servers self)) self in
    let p :=
      logger_info "Model server registered successfully"
        [("server_id", LogStr sid);
         ("server_type", LogStr (req_server_type request));
         ("model_count", LogInt (length (models server)))] p in
    (Returned server, p, self).

(** [self.get_server_by_id(server_id)] *)
Definition get_server_by_id (p : Process) (self : ModelService)
  (sid : string) : option ModelServer * Process * ModelService :=
  let '(p, self) := _initialize p self in
  match _registered_servers self !! sid with
  | Some server => (Some server, p, self)
  | None => (_runtime_servers self !! sid, p, self)
  end.

(** The assignments of [update_server] to the fields given in the
    request. *)
Definition apply_update (request : ModelServerUpdateRequest)
  (server : ModelServer) (now : datetime) : ModelServer :=
  {| server_id := server_id server;
     server_type := server_type server;
     base_url := default (base_url server) (upd_base_url request);
     api_key_required :=
       default (api_key_required server) (upd_api_key_required request);
     models := default (models server) (upd_models request);
     server_config :=
       match upd_server_config request with
       | Some c => Some c
       | None => server_config server
       end;
     status := default (status server) (upd_status request);
     tags := default (tags server) (upd_tags request);
     created_at := created_at server;
     updated_at := now |}.

(** [self.update_server(server_id, request)]; the server object is changed
    in place, so the dictionary holds the updated descriptor. *)
Definition update_server (p : Process) (self : ModelService)
  (sid : string) (request : ModelServerUpdateRequest)
  : outcome (option ModelServer) * Process * ModelService :=
  let '(p, self) := _initialize p self in
  if bool_decide (is_Some (_runtime_servers self !! sid)) then
    (Raised (ValueError
       "Cannot update runtime servers specified via environment variables"),
     p, self)
  else
    match _registered_servers self !! sid with
    | None => (Returned None, p, self)
    | Some server =>
        let '(now, p) := utcnow p in
        let server := apply_update request server now in
        let self :=
          set_registered (<[sid := server]> (_registered_servers self))
            self in
        let p :=
          logger_info "Server updated successfully"
            [("server_id", LogStr sid)] p in
        (Returned (Some server), p, self)
    end.

(** [self.delete_server(server_id)] *)
Definition delete_server (p : Process) (self : ModelService) (sid : string)
  : outcome bool * Process * ModelService :=
  let '(p, self) := _initialize p self in
  if bool_decide (is_Some (_runtime_servers self !! sid)) then
    (Raised (ValueError
       "Cannot delete runtime servers specified via environment variables"),
     p, self)
  else if bool_decide (is_Some (_registered_servers self !! sid)) then
    let self :=
      set_registered (delete sid (_registered_servers self)) self in
    let p :=
      logger_info "Server deleted successfully"
        [("server_id", LogStr sid)] p in
    (Returned true, p, self)
  else (Returned false, p, self).

(** [self.reload_runtime_servers()] *)
Definition reload_runtime_servers (p : Process) (self : ModelService)
  : Process * ModelService :=
  let self := set_runtime ∅ self in
  let '(p, self) := _load_runtime_servers is_ModelType p self in
  let p :=
    logger_info "Runtime servers reloaded from environment variables" [] p in
  (p, self).

(** *** Runs of the registry

    A run interleaves calls of the four state-changing methods with changes
    of the environment made outside the service. *)
Inductive call :=
| Register (request : ModelServerRegistrationRequest)
| Update (sid : string) (request : ModelServerUpdateRequest)
| Delete (sid : string)
| ReloadRuntime
| SetEnviron (items : list (string * string)).

Definition step (st : Process * ModelService) (c : call)
  : Process * ModelService :=
  let '(p, self) := st in
  match c with
  | Register request =>
      let '(_, p, self) := register_server p self request in (p, self)
  | Update sid request =>
      let '(_, p, self) := update_server p self sid request in (p, self)
  | Delete sid =>
      let '(_, p, self) := delete_server p self sid in (p, self)
  | ReloadRuntime => reload_runtime_servers p self
  | SetEnviron items => (set_environ items p, self)
  end.

Definition run (p : Process) (calls : list call) : Process * ModelService :=
  fold_left step calls (p, new_service).

(** A call that leaves the environment alone. *)
Definition is_method (c : call) : bool :=
  match c with SetEnviron _ => false | _ => true end.

(** No identifier is in both namespaces. *)
Definition namespaces_disjoint (self : ModelService) : Prop :=
  forall sid : string,
    ~ (is_Some (_registered_servers self !! sid)
       /\ is_Some (_runtime_servers self !! sid)).

End Registry.

(** ** The status aggregation engine (services/response_builder.py) *)

(** The lifecycle status of one evaluation result, as the unit tests name
    its members. *)
Inductive EvaluationStatus := PENDING | RUNNING | COMPLETED | FAILED | CANCELLED.

#[global] Instance EvaluationStatus_eq_dec : EqDecision EvaluationStatus.
Proof. solve_decision. Defined.

Definition EvaluationStatus_index (s : EvaluationStatus) : nat :=
  match s with
  | PENDING => 0 | RUNNING => 1 | COMPLETED => 2 | FAILED => 3 | CANCELLED => 4
  end%nat.

Definition EvaluationStatus_of_index (n : nat) : EvaluationStatus :=
  match n with
  | 0 => PENDING | 1 => RUNNING | 2 => COMPLETED | 3 => FAILED | _ => CANCELLED
  end%nat.

#[global] Instance EvaluationStatus_countable : Countable EvaluationStatus.
Proof.
  apply (inj_countable' EvaluationStatus_index EvaluationStatus_of_index).
  intros []; reflexivity.
Defined.

(** An evaluation result, as [create_evaluation_result] of the unit tests
    builds it; only the status matters to the engine. *)
Record EvaluationResult := {
  provider_id : string;
  benchmark_id : string;
  result_status : EvaluationStatus;
  duration_seconds : option Z
}.

(** Modelled from the spec: [ResponseBuilder._count_results_by_status] of
    services/response_builder.py, which is not among the sources.  Section
    4.3, step 1: count the occurrences of each status among the results; a
    status that does not occur is absent from the tally. *)
Definition _count_results_by_status (results : list EvaluationResult)
  : gmap EvaluationStatus nat :=
  fold_left
    (fun counts r =>
       <[result_status r := S (default 0%nat (counts !! result_status r))]>
         counts)
    results ∅.

(** [status_counts.get(status, 0)] *)
Definition count_of (status_counts : gmap EvaluationStatus nat)
  (s : EvaluationStatus) : nat :=
  default 0%nat (status_counts !! s).

(** Modelled from the spec: [ResponseBuilder._determine_overall_status] of
    services/response_builder.py, which is not among the sources.  The four
    ordered rules of section 4.3, step 2, word for word: zero expected
    evaluations give pending, a running result gives running, a pending
    result gives pending, anything else gives completed. *)
Definition _determine_overall_status
  (status_counts : gmap EvaluationStatus nat) (total_evaluations : nat)
  : EvaluationStatus :=
  if (total_evaluations =? 0)%nat then PENDING
  else if (0 <? count_of status_counts RUNNING)%nat then RUNNING
  else if (0 <? count_of status_counts PENDING)%nat then PENDING
  else COMPLETED.

(** The overall status of a response, as [build_response] derives it from the
    results and the number of evaluations the request defines. *)
Definition overall_status (results : list EvaluationResult)
  (total_evaluations : nat) : EvaluationStatus :=
  _determine_overall_status (_count_results_by_status results)
    total_evaluations.

(** The assertions of [TestResponseBuilderStatusLogic] on
    [_determine_overall_status]: the tally, the total and the expected
    status of each test, in the order of the test file. *)
Definition status_logic_tests
  : list (gmap EvaluationStatus nat * nat * EvaluationStatus) :=
  [ (∅, 0%nat, PENDING);
    ({[COMPLETED := 2%nat; RUNNING := 1%nat; PENDING := 1%nat]}, 4%nat, RUNNING);
    ({[COMPLETED := 2%nat; PENDING := 1%nat]}, 3%nat, PENDING);
    ({[COMPLETED := 3%nat]}, 3%nat, COMPLETED);
    ({[FAILED := 3%nat]}, 3%nat, FAILED);
    ({[COMPLETED := 2%nat; FAILED := 1%nat]}, 3%nat, COMPLETED);
    ({[CANCELLED := 2%nat]}, 2%nat, COMPLETED) ].

(** An implementation passes the tests when it returns the expected status
    on each of them. *)
Definition passes_status_logic_tests
  (f : gmap EvaluationStatus nat -> nat -> EvaluationStatus) : bool :=
  forallb
    (fun t => bool_decide (f (t.1.1) (t.1.2) = t.2))
    status_logic_tests.

(** ** The read-only methods of [ModelService] *)

#[global] Instance ModelStatus_eq_dec : EqDecision ModelStatus.
Proof. solve_decision. Defined.

Section Lookups.

Variable is_ModelType : string -> bool.

(** [self.get_model_on_server(server_id, model_name)]: the first model of the
    server whose name is [model_name].  A [ModelServer] object is always
    true, so [not server] holds of [None] only. *)
Definition get_model_on_server (p : Process) (self : ModelService)
  (sid name : string)
  : option (ModelServer * ServerModel) * Process * ModelService :=
  let '(p, self) := _initialize is_ModelType p self in
  let '(found, p, self) := get_server_by_id is_ModelType p self sid in
  match found with
  | None => (None, p, self)
  | Some server =>
      (match List.find (fun m => String.eqb (model_name m) name)
               (models server) with
       | Some model => Some (server, model)
       | None => None
       end, p, self)
  end.

End Lookups.

Record ModelServerSummary := {
  summary_server_id : string;
  summary_server_type : ModelType;
  summary_base_url : string;
  summary_model_count : nat;
  summary_status : ModelStatus;
  summary_tags : list string;
  summary_created_at : datetime
}.

Record ListModelServersResponse := {
  servers : list ModelServerSummary;
  total_servers : nat;
  listed_runtime_servers : list ModelServerSummary
}.

(** [ModelServerSummary(server_id=server.server_id, ...,
    model_count=len(server.models), ...)] *)
Definition summary_of (server : ModelServer) : ModelServerSummary :=
  {| summary_server_id := server_id server;
     summary_server_type := server_type server;
     summary_base_url := base_url server;
     summary_model_count := length (models server);
     summary_status := status server;
     summary_tags := tags server;
     summary_created_at := created_at server |}.

Section Listing.

Variable is_ModelType : string -> bool.

(** [dict.values()] yields the values in the order of insertion, which a
    [gmap] does not record: the order in which each namespace is traversed
    is a parameter, some arrangement of the values of the dictionary. *)
Variables registered_values runtime_values
  : gmap string ModelServer -> list ModelServer.

(** [self.get_all_servers(include_inactive)] *)
Definition get_all_servers (p : Process) (self : ModelService)
  (include_inactive : bool)
  : ListModelServersResponse * Process * ModelService :=
  let '(p, self) := _initialize is_ModelType p self in
  let registered_summaries :=
    map summary_of
      (List.filter
         (fun server =>
            include_inactive || bool_decide (status server = ACTIVE))
         (registered_values (_registered_servers self))) in
  let runtime_summaries :=
    map summary_of (runtime_values (_runtime_servers self)) in
  let all_summaries := registered_summaries ++ runtime_summaries in
  ({| servers := all_summaries;
      total_servers := length all_summaries;
      listed_runtime_servers := runtime_summaries |}, p, self).

End Listing.

(** The values of a dictionary in the order of [map_to_list], one of the
    arrangements [get_all_servers] may traverse. *)
Definition values_in_key_order (m : gmap string ModelServer)
  : list ModelServer :=
  (map_to_list m).*2.

(** ** Datetime utilities (eval_hub/utils/datetime_utils.py) *)

Module DatetimeUtils.

(** A [datetime.datetime] value: its date and time fields, of a type left
    open, and its [tzinfo], [None] for a naive value. *)
Record pydatetime (civil tz : Type) := {
  civil_fields : civil;
  tzinfo : option tz
}.
Arguments civil_fields {civil tz} _.
Arguments tzinfo {civil tz} _.

(** [s[:-1]] *)
Fixpoint drop_last (s : string) : string :=
  match s with
  | EmptyString => EmptyString
  | String c EmptyString => EmptyString
  | String c s' => String c (drop_last s')
  end.

Section Parse.

Context {civil tz : Type}.

(** [datetime.UTC] *)
Variable UTC : tz.

(** [datetime.fromisoformat] of the standard library: the value, or the
    message of the [ValueError] it raises. *)
Variable fromisoformat : string -> pydatetime civil tz + string.

(** [dt.replace(tzinfo=UTC)] *)
Definition replace_tzinfo_UTC (dt : pydatetime civil tz) : pydatetime civil tz :=
  {| civil_fields := civil_fields dt; tzinfo := Some UTC |}.

(** The string handed to [fromisoformat]: a final [Z] becomes [+00:00]. *)
Definition normalise_Z (datetime_str : string) : string :=
  if PyStr.endswith datetime_str "Z"
  then drop_last datetime_str +:+ "+00:00"
  else datetime_str.

(** [parse_iso_datetime(datetime_str)] *)
Definition parse_iso_datetime (datetime_str : string)
  : outcome (pydatetime civil tz) :=
  if negb (PyStr.truthy datetime_str)
  then Raised (ValueError "Empty datetime string")
  else
    let datetime_str := normalise_Z datetime_str in
    match fromisoformat datetime_str with
    | inl dt => Returned dt
    | inr _ =>
        match fromisoformat datetime_str with
        | inl dt =>
            Returned (match tzinfo dt with
                      | None => replace_tzinfo_UTC dt
                      | Some _ => dt
                      end)
        | inr e =>
            Raised (ValueError
                      ("Unable to parse datetime string '" +:+ datetime_str
                       +:+ "': " +:+ e))
        end
    end.

(** [ensure_timezone_aware(dt)] *)
Definition ensure_timezone_aware (dt : pydatetime civil tz)
  : pydatetime civil tz :=
  match tzinfo dt with
  | None => replace_tzinfo_UTC dt
  | Some _ => dt
  end.

End Parse.

End DatetimeUtils.

(** ** Properties used in the statements *)

(** The shape every model and every server built by the loader has. *)
Definition runtime_model_shaped (m : ServerModel) : Prop :=
  model_status m = ACTIVE /\ model_tags m = ["runtime"].

Definition runtime_shaped (s : ModelServer) : Prop :=
  api_key_required s = true /\ status s = ACTIVE /\ tags s = ["runtime"]
  /\ forall m, In m (models s) -> runtime_model_shaped m.

(** Every server of a dictionary has that shape. *)
Definition servers_runtime_shaped (servers : gmap string ModelServer) : Prop :=
  forall (sid : string) (server : ModelServer),
    servers !! sid = Some server -> runtime_shaped server.

(** Equality of two descriptors in every field but the two timestamps. *)
Definition same_but_timestamps (a b : ModelServer) : Prop :=
  server_id a = server_id b /\ server_type a = server_type b
  /\ base_url a = base_url b /\ api_key_required a = api_key_required b
  /\ models a = models b /\ server_config a = server_config b
  /\ status a = status b /\ tags a = tags b.

(** Two dictionaries with the same identifiers and, under each identifier,
    descriptors equal but for the timestamps. *)
Definition same_servers_but_timestamps (m m' : gmap string ModelServer) : Prop :=
  forall sid : string, option_Forall2 same_but_timestamps (m !! sid) (m' !! sid).

Definition loader_states_agree (st st' : LoaderState) : Prop :=
  environ st.1 = environ st'.1 /\ same_servers_but_timestamps st.2 st'.2.

(** What holds of the process and the service object as long as the
    environment is the one of the process [p0] the run started with:
    registered identifiers are not among the identifiers the loader derives
    from that environment, the runtime namespace holds only such
    identifiers, and all of them once the service is initialised. *)
Definition registry_inv (is_ModelType : string -> bool) (p0 : Process)
  (st : Process * ModelService) : Prop :=
  environ st.1 = environ p0
  /\ (forall sid, is_Some (_registered_servers st.2 !! sid) ->
                  ~ is_Some ((load_servers is_ModelType p0).2 !! sid))
  /\ (forall sid, is_Some (_runtime_servers st.2 !! sid) ->
                  is_Some ((load_servers is_ModelType p0).2 !! sid))
  /\ (_initialized st.2 = true ->
      forall sid, is_Some ((load_servers is_ModelType p0).2 !! sid) ->
                  is_Some (_runtime_servers st.2 !! sid)).

(** [s] has a line break, the one character that [.] does not match. *)
Fixpoint has_newline (s : string) : bool :=
  match s with
  | EmptyString => false
  | String c s' => Ascii.eqb c PyStr.newline || has_newline s'
  end.

(** A server with the one model that the legacy pattern gives it. *)
Definition single_model_server (sid : string) (server : ModelServer) : Prop :=
  server_id server = sid /\ models server = [runtime_model sid].

(** The number of results that carry the status [s]. *)
Definition occurrences (s : EvaluationStatus)
  (results : list EvaluationResult) : nat :=
  length (List.filter (fun r => bool_decide (result_status r = s)) results).

(** What [register_server] does on the namespaces of [self]: raise and
    change nothing when the identifier of the request is in one of them,
    store and return the new descriptor otherwise. *)
Definition register_acts_on (is_ModelType : string -> bool)
  (p : Process) (self : ModelService)
  (request : ModelServerRegistrationRequest)
  (p1 : Process) (s1 : ModelService) : Prop :=
  let sid := req_server_id request in
  let present :=
    is_Some (_registered_servers s1 !! sid)
    \/ is_Some (_runtime_servers s1 !! sid) in
  (present ->
   exists message,
     register_server is_ModelType p self request
     = (Raised (ValueError message), p1, s1))
  /\ (~ present ->
      exists server p',
        register_server is_ModelType p self request
        = (Returned server, p',
           set_registered (<[sid := server]> (_registered_servers s1)) s1)
        /\ created_at server = clock p1 0%nat
        /\ updated_at server = clock p1 0%nat
        /\ server_id server = sid
        /\ server_type server = req_server_type request
        /\ base_url server = req_base_url request
        /\ api_key_required server = req_api_key_required request
        /\ models server = default [] (req_models request)
        /\ server_config server = req_server_config request
        /\ status server = req_status request
        /\ tags server = req_tags request).

(** What [update_server] and [delete_server] do for an identifier of the
    runtime namespace of [self]: raise, and change nothing. *)
Definition runtime_entry_refused (is_ModelType : string -> bool)
  (p : Process) (self : ModelService) (sid : string)
  (request : ModelServerUpdateRequest)
  (p1 : Process) (s1 : ModelService) : Prop :=
  is_Some (_runtime_servers s1 !! sid) ->
  update_server is_ModelType p self sid request
  = (Raised (ValueError
       "Cannot update runtime servers specified via environment variables"),
     p1, s1)
  /\ delete_server is_ModelType p self sid
     = (Raised (ValueError
          "Cannot delete runtime servers specified via environment variables"),
        p1, s1).

(** The call is [reload_runtime_servers]. *)
Definition is_reload (c : call) : bool :=
  match c with ReloadRuntime => true | _ => false end.

(** Every descriptor of a dictionary is stored under its own identifier. *)
Definition keyed_by_server_id (m : gmap string ModelServer) : Prop :=
  forall (sid : string) (server : ModelServer),
    m !! sid = Some server -> server_id server = sid.

(** What every entry of the dictionary of the loader satisfies: it is stored
    under its own identifier, its base URL is not empty and has no
    surrounding whitespace, it has at least one model, each model is named
    after the server or by a non-empty name without surrounding whitespace,
    its type is a value of [ModelType] or the default, and it has no
    server-specific configuration. *)
Definition loaded_entry (is_ModelType : string -> bool) (sid : string)
  (server : ModelServer) : Prop :=
  server_id server = sid
  /\ base_url server <> ""
  /\ PyStr.strip (base_url server) = base_url server
  /\ models server <> []
  /\ (forall m, In m (models server) ->
                 model_name m = sid
                 \/ (model_name m <> ""
                     /\ PyStr.strip (model_name m) = model_name m))
  /\ (is_ModelType (server_type server) = true
      \/ server_type server = OPENAI_COMPATIBLE)
  /\ server_config server = None.

(** Every entry of a dictionary is such an entry. *)
Definition entries_loaded (is_ModelType : string -> bool)
  (m : gmap string ModelServer) : Prop :=
  forall (sid : string) (server : ModelServer),
    m !! sid = Some server -> loaded_entry is_ModelType sid server.

(** The clock never goes back. *)
Definition clock_never_back (c : Clock) : Prop :=
  forall n : nat, c n <= c (S n).

(** Every descriptor of the dictionary was created no later than it was
    last updated, and last updated no later than [now]. *)
Definition stamped_before (now : datetime) (m : gmap string ModelServer)
  : Prop :=
  forall (sid : string) (server : ModelServer),
    m !! sid = Some server ->
    created_at server <= updated_at server /\ updated_at server <= now.

(** Both namespaces are keyed by the identifiers of their descriptors. *)
Definition both_keyed (self : ModelService) : Prop :=
  keyed_by_server_id (_registered_servers self)
  /\ keyed_by_server_id (_runtime_servers self).

(** The state of the loader, with a second dictionary [aux] that the loader
    does not touch. *)
Definition loader_stamped (aux : gmap string ModelServer) (st : LoaderState)
  : Prop :=
  clock_never_back (clock st.1)
  /\ stamped_before (clock st.1 0%nat) st.2
  /\ stamped_before (clock st.1 0%nat) aux.

(** The registry: both namespaces are stamped before the next reading. *)
Definition registry_stamped (st : Process * ModelService) : Prop :=
  clock_never_back (clock st.1)
  /\ stamped_before (clock st.1 0%nat) (_registered_servers st.2)
  /\ stamped_before (clock st.1 0%nat) (_runtime_servers st.2).

(** ** Sample inputs *)

(** An instance of the loader's parameter: the enum [ModelType] with the one
    value the sources name. *)
Definition openai_compatible_only (v : string) : bool :=
  String.eqb v "openai-compatible".

(** A process with the given environment, an empty log, and a clock that
    advances by one at each reading. *)
Definition process_with (items : list (string * string)) : Process :=
  {| environ := items; clock := Z.of_nat; log := [] |}.

(** A registration request for the identifier [sid]. *)
Definition registration_of (sid url : string) : ModelServerRegistrationRequest :=
  {| req_server_id := sid; req_server_type := OPENAI_COMPATIBLE;
     req_base_url := url; req_api_key_required := false;
     req_models := None; req_server_config := None;
     req_status := ACTIVE; req_tags := [] |}.

(** An update request that changes the base URL only. *)
Definition update_base_url_to (url : string) : ModelServerUpdateRequest :=
  {| upd_base_url := Some url; upd_api_key_required := None;
     upd_models := None; upd_server_config := None;
     upd_status := None; upd_tags := None |}.

(** An update request that changes the status only. *)
Definition update_status_to (st : ModelStatus) : ModelServerUpdateRequest :=
  {| upd_base_url := None; upd_api_key_required := None;
     upd_models := None; upd_server_config := None;
     upd_status := Some st; upd_tags := None |}.

(** * Theorems *)

(** ** The string operations on examples *)

Example strip_ex : PyStr.strip "  http://a:8000 " = "http://a:8000".
Proof. reflexivity. Qed.

Example split_ex : PyStr.split "," "a, b,,c" = ["a"; " b"; ""; "c"].
Proof. reflexivity. Qed.

Example re_match_ex :
  PyStr.re_match_URL "EVAL_HUB_MODEL_" "EVAL_HUB_MODEL_A_URL_B_URL" = Some "A_URL_B".
Proof. reflexivity. Qed.

Example lower_ex : PyStr.lower "My_Server-1" = "my_server-1".
Proof. reflexivity. Qed.

(** ** The loader and the registry on examples *)

(** The example of section 8 of the spec: the namespaced pattern overwrites
    the entry of the simple pattern for the same identifier. *)
Example namespaced_overwrites_simple :
  let p :=
    process_with [("MODEL_SERVER_URL", "http://a:8000");
                  ("MODEL_SERVER_ID", "a");
                  ("EVAL_HUB_MODEL_SERVER_A_URL", "http://b:9000")] in
  base_url <$> (get_server_by_id openai_compatible_only p new_service "a").1.1
  = Some "http://b:9000".
Proof. vm_compute. reflexivity. Qed.

(** The first call on a fresh service loads the runtime namespace, so an
    identifier defined by the environment cannot be registered. *)
Example register_runtime_identifier_raises :
  let p := process_with [("MODEL_SERVER_URL", "http://a:8000")] in
  (register_server openai_compatible_only p new_service
     (registration_of "default" "http://c:7000")).1.1
  = Raised (ValueError
      "Server with ID 'default' is specified as runtime server via environment variable").
Proof. vm_compute. reflexivity. Qed.

Example model_names_ex :
  parse_model_names " m1 , ,m2," "sid" = ["m1"; "m2"]
  /\ parse_model_names " , " "sid" = ["sid"]
  /\ parse_model_names "" "sid" = ["sid"].
Proof. repeat split. Qed.

(** ** What the loader produces *)

(** Case analysis along the guards of the two loop bodies; [tac] closes the
    branches in which the body leaves the state as it is. *)
Ltac namespaced_guards tac :=
  destruct (_ && _); [|tac];
  destruct (PyStr.re_match_URL _ _) as [?group1|]; [|tac];
  destruct (negb _); [tac|].

Ltac legacy_guards tac :=
  destruct (_ && _); [|tac];
  destruct (PyStr.re_match_URL _ _) as [?group1|]; [|tac];
  destruct (bool_decide _); [tac|];
  destruct (negb _); [tac|].

Section LoaderFacts.

Variable is_ModelType : string -> bool.

Lemma runtime_models_shaped (names : list string) (m : ServerModel) :
  In m (map runtime_model names) -> runtime_model_shaped m.
Proof.
  rewrite in_map_iff. intros (name & <- & _). split; reflexivity.
Qed.

Lemma servers_runtime_shaped_empty : servers_runtime_shaped ∅.
Proof. intros sid server H. by rewrite lookup_empty in H. Qed.

Lemma servers_runtime_shaped_insert servers sid server :
  runtime_shaped server -> servers_runtime_shaped servers ->
  servers_runtime_shaped (<[sid := server]> servers).
Proof.
  intros Hs Hm k s'. destruct (decide (sid = k)) as [->|Hne].
  - rewrite lookup_insert_eq. by intros [= <-].
  - rewrite lookup_insert_ne by done. apply Hm.
Qed.

Lemma load_simple_shaped st :
  servers_runtime_shaped st.2 ->
  servers_runtime_shaped (load_simple is_ModelType st).2.
Proof.
  destruct st as [p m]. unfold load_simple. simpl. intros H.
  destruct (getenv p "MODEL_SERVER_URL") as [u|]; [|exact H].
  destruct (PyStr.truthy u); [|exact H].
  destruct (PyStr.truthy (PyStr.strip u)); [|exact H].
  destruct (ModelType_of is_ModelType _); simpl;
    (apply servers_runtime_shaped_insert; [|exact H]);
    (do 3 (split; [reflexivity|])); intros m'; apply runtime_models_shaped.
Qed.

Lemma namespaced_step_shaped st item :
  servers_runtime_shaped st.2 ->
  servers_runtime_shaped (namespaced_step is_ModelType st item).2.
Proof.
  destruct st as [p m], item as [env_var env_value].
  unfold namespaced_step. simpl. intros H.
  namespaced_guards ltac:(exact H).
  destruct (ModelType_of is_ModelType _); simpl;
    (apply servers_runtime_shaped_insert; [|exact H]);
    (do 3 (split; [reflexivity|])); intros m'; apply runtime_models_shaped.
Qed.

Lemma legacy_step_shaped st item :
  servers_runtime_shaped st.2 ->
  servers_runtime_shaped (legacy_step is_ModelType st item).2.
Proof.
  destruct st as [p m], item as [env_var env_value].
  unfold legacy_step. simpl. intros H.
  legacy_guards ltac:(exact H).
  simpl. apply servers_runtime_shaped_insert; [|exact H].
  do 3 (split; [reflexivity|]). intros m'.
  apply (runtime_models_shaped [_]).
Qed.

Lemma fold_left_preserves {A B} (P : A -> Prop) (f : A -> B -> A) l :
  (forall a b, P a -> P (f a b)) -> forall a, P a -> P (fold_left f l a).
Proof. intros Hf. induction l as [|b l IH]; simpl; auto. Qed.

Lemma load_servers_shaped p :
  servers_runtime_shaped (load_servers is_ModelType p).2.
Proof.
  unfold load_servers.
  apply (fold_left_preserves (fun st : LoaderState => servers_runtime_shaped st.2));
    [intros; by apply legacy_step_shaped|].
  apply (fold_left_preserves (fun st : LoaderState => servers_runtime_shaped st.2));
    [intros; by apply namespaced_step_shaped|].
  apply load_simple_shaped. apply servers_runtime_shaped_empty.
Qed.

End LoaderFacts.

(** ** The status aggregation engine: the tally and the ordered rules *)

Section StatusEngine.

Implicit Types (results : list EvaluationResult) (s : EvaluationStatus).

Lemma tally_step_count (counts : gmap EvaluationStatus nat) r s :
  count_of (<[result_status r := S (default 0%nat (counts !! result_status r))]>
              counts) s
  = (count_of counts s + (if bool_decide (result_status r = s) then 1 else 0))%nat.
Proof.
  unfold count_of. case_bool_decide as E.
  - subst s. rewrite lookup_insert_eq. simpl. lia.
  - rewrite lookup_insert_ne by done. lia.
Qed.

Lemma tally_fold_count results (counts : gmap EvaluationStatus nat) s :
  count_of
    (fold_left
       (fun counts r =>
          <[result_status r := S (default 0%nat (counts !! result_status r))]>
            counts) results counts) s
  = (count_of counts s + occurrences s results)%nat.
Proof.
  revert counts. induction results as [|r results IH]; intros counts.
  - unfold occurrences. simpl. lia.
  - cbn [fold_left]. rewrite IH, tally_step_count.
    unfold occurrences. cbn [List.filter].
    case_bool_decide; simpl; lia.
Qed.

Lemma tally_count results s :
  count_of (_count_results_by_status results) s = occurrences s results.
Proof.
  unfold _count_results_by_status. rewrite tally_fold_count.
  unfold count_of. rewrite lookup_empty. reflexivity.
Qed.

Lemma occurrences_pos results s :
  (0 < occurrences s results)%nat <->
  exists r, In r results /\ result_status r = s.
Proof.
  unfold occurrences. induction results as [|r results IH]; simpl.
  - split; [lia | intros (? & [] & _)].
  - case_bool_decide as E; simpl.
    + split; [intros _; exists r; auto | lia].
    + rewrite IH. split.
      * intros (r' & Hin & Hs). exists r'. auto.
      * intros (r' & [->|Hin] & Hs); [contradiction | exists r'; auto].
Qed.

Lemma occurrences_zero results s :
  occurrences s results = 0%nat <->
  forall r, In r results -> result_status r <> s.
Proof.
  split.
  - intros Hz r Hin Hs.
    assert (0 < occurrences s results)%nat; [|lia].
    apply occurrences_pos. eauto.
  - intros Hall. destruct (occurrences s results) eqn:E; [done|].
    assert (0 < occurrences s results)%nat as Hpos by lia.
    apply occurrences_pos in Hpos as (r & Hin & Hs). by destruct (Hall r Hin).
Qed.

End StatusEngine.

(** The rules of section 4.3 on the assertions of the unit tests: they
    return the expected status on every test but the fifth,
    [test_determine_overall_status_all_failed], which expects FAILED for
    three failed results of three expected evaluations, where rule 4 gives
    COMPLETED. *)
Lemma determine_overall_status_on_tests :
  map (fun t => bool_decide (_determine_overall_status t.1.1 t.1.2 = t.2))
    status_logic_tests
  = [true; true; true; true; false; true; true].
Proof. vm_compute. reflexivity. Qed.

(** So the rules of the spec do not pass the unit tests as a whole: the
    all-failed tally is among the tests, with FAILED expected. *)
Lemma spec_rules_fail_all_failed_test :
  passes_status_logic_tests _determine_overall_status = false
  /\ _determine_overall_status {[FAILED := 3%nat]} 3 = COMPLETED
  /\ In ({[FAILED := 3%nat]}, 3%nat, FAILED) status_logic_tests.
Proof.
  split; [vm_compute; reflexivity|].
  split; [vm_compute; reflexivity|].
  unfold status_logic_tests. simpl. tauto.
Qed.

(** Whatever function passes the unit tests returns FAILED, not COMPLETED,
    on the all-failed tally. *)
Lemma tests_pin_all_failed f :
  passes_status_logic_tests f = true -> f {[FAILED := 3%nat]} 3%nat = FAILED.
Proof.
  unfold passes_status_logic_tests, status_logic_tests. intros H.
  rewrite forallb_forall in H.
  assert (In ({[FAILED := 3%nat]}, 3%nat, FAILED) status_logic_tests) as Hin
    by (unfold status_logic_tests; simpl; tauto).
  apply H in Hin. simpl in Hin. by apply bool_decide_eq_true in Hin.
Qed.

(** C3: the ordered rules, first match wins.  With zero expected evaluations
    the overall status is pending; otherwise one running result makes it
    running, whatever else is present; otherwise one pending result makes it
    pending. *)
Theorem overall_status_ordered_rules :
  forall (results : list EvaluationResult) (total_evaluations : nat),
    (total_evaluations = 0%nat ->
     overall_status results total_evaluations = PENDING)
    /\ (total_evaluations <> 0%nat ->
        (exists r, In r results /\ result_status r = RUNNING) ->
        overall_status results total_evaluations = RUNNING)
    /\ (total_evaluations <> 0%nat ->
        (forall r, In r results -> result_status r <> RUNNING) ->
        (exists r, In r results /\ result_status r = PENDING) ->
        overall_status results total_evaluations = PENDING).
Proof.
  intros results total. unfold overall_status, _determine_overall_status.
  rewrite !tally_count. repeat split.
  - intros ->. reflexivity.
  - intros Hne Hrun. apply occurrences_pos in Hrun.
    destruct (Nat.eqb_spec total 0); [done|].
    destruct (Nat.ltb_spec 0 (occurrences RUNNING results)); [done | lia].
  - intros Hne Hnorun Hpend.
    apply occurrences_zero in Hnorun. apply occurrences_pos in Hpend.
    rewrite Hnorun.
    destruct (Nat.eqb_spec total 0); [done|]. simpl.
    destruct (Nat.ltb_spec 0 (occurrences PENDING results)); [done | lia].
Qed.

(** The four rules on the tally itself, as the unit tests call the
    function: the three of the theorem above and the default, which gives
    COMPLETED for every tally without running and pending results. *)
Lemma determine_overall_status_rules (status_counts : gmap EvaluationStatus nat)
  (total_evaluations : nat) :
  (total_evaluations = 0%nat ->
   _determine_overall_status status_counts total_evaluations = PENDING)
  /\ (total_evaluations <> 0%nat ->
      (0 < count_of status_counts RUNNING)%nat ->
      _determine_overall_status status_counts total_evaluations = RUNNING)
  /\ (total_evaluations <> 0%nat ->
      count_of status_counts RUNNING = 0%nat ->
      (0 < count_of status_counts PENDING)%nat ->
      _determine_overall_status status_counts total_evaluations = PENDING)
  /\ (total_evaluations <> 0%nat ->
      count_of status_counts RUNNING = 0%nat ->
      count_of status_counts PENDING = 0%nat ->
      _determine_overall_status status_counts total_evaluations = COMPLETED).
Proof.
  unfold _determine_overall_status. repeat split.
  - intros ->. reflexivity.
  - intros Hne Hrun. destruct (Nat.eqb_spec total_evaluations 0); [done|].
    destruct (Nat.ltb_spec 0 (count_of status_counts RUNNING)); [done | lia].
  - intros Hne -> Hpend. destruct (Nat.eqb_spec total_evaluations 0); [done|].
    simpl. destruct (Nat.ltb_spec 0 (count_of status_counts PENDING)); [done | lia].
  - intros Hne -> ->. by destruct (Nat.eqb_spec total_evaluations 0).
Qed.

(** ** The loader as a function of the environment

    Two runs of the loader under the same environment differ only in what
    they read from the clock. *)

Section LoaderDeterminism.

Variable is_ModelType : string -> bool.

Lemma same_servers_is_Some m m' sid :
  same_servers_but_timestamps m m' -> is_Some (m !! sid) <-> is_Some (m' !! sid).
Proof.
  intros H. specialize (H sid).
  destruct H; split; intros [? ?]; simplify_eq; eauto.
Qed.

Lemma same_servers_insert m m' sid a b :
  same_but_timestamps a b -> same_servers_but_timestamps m m' ->
  same_servers_but_timestamps (<[sid := a]> m) (<[sid := b]> m').
Proof.
  intros Hab Hm k. destruct (decide (sid = k)) as [->|Hne].
  - rewrite !lookup_insert_eq. by constructor.
  - rewrite !lookup_insert_ne by done. apply Hm.
Qed.

Lemma same_servers_refl m : same_servers_but_timestamps m m.
Proof.
  intros k. destruct (m !! k); constructor. repeat split.
Qed.

Lemma load_simple_agree st st' :
  loader_states_agree st st' ->
  loader_states_agree (load_simple is_ModelType st) (load_simple is_ModelType st').
Proof.
  destruct st as [p m], st' as [q m']. intros [Henv Hm]. simpl in Henv, Hm.
  unfold load_simple, getenv_or, getenv. rewrite Henv.
  destruct (lookup_env (environ q) "MODEL_SERVER_URL") as [u|]; [|by split].
  destruct (PyStr.truthy u); [|by split].
  destruct (PyStr.truthy (PyStr.strip u)); [|by split].
  destruct (ModelType_of is_ModelType _); simpl;
    (split; [exact Henv | apply same_servers_insert; [repeat split | exact Hm]]).
Qed.

Lemma namespaced_step_agree st st' item :
  loader_states_agree st st' ->
  loader_states_agree (namespaced_step is_ModelType st item)
    (namespaced_step is_ModelType st' item).
Proof.
  destruct st as [p m], st' as [q m'], item as [env_var env_value].
  intros [Henv Hm]. simpl in Henv, Hm.
  unfold namespaced_step, getenv_or, getenv. rewrite Henv.
  namespaced_guards ltac:(by split).
  destruct (ModelType_of is_ModelType _); simpl;
    (split; [exact Henv | apply same_servers_insert; [repeat split | exact Hm]]).
Qed.

Lemma legacy_step_agree st st' item :
  loader_states_agree st st' ->
  loader_states_agree (legacy_step is_ModelType st item)
    (legacy_step is_ModelType st' item).
Proof.
  destruct st as [p m], st' as [q m'], item as [env_var env_value].
  intros [Henv Hm]. simpl in Henv, Hm.
  unfold legacy_step, getenv_or, getenv. rewrite Henv.
  destruct (_ && _); [|by split].
  destruct (PyStr.re_match_URL _ _) as [g|]; [|by split].
  rewrite (bool_decide_ext _ _ (same_servers_is_Some m m' (PyStr.lower g) Hm)).
  destruct (bool_decide _); [by split|].
  destruct (negb _); [by split|].
  simpl. split; [exact Henv|].
  apply same_servers_insert; [repeat split | exact Hm].
Qed.

Lemma fold_left_agree (f : LoaderState -> string * string -> LoaderState) items :
  (forall st st' item,
      loader_states_agree st st' -> loader_states_agree (f st item) (f st' item)) ->
  forall st st',
    loader_states_agree st st' ->
    loader_states_agree (fold_left f items st) (fold_left f items st').
Proof.
  intros Hf. induction items as [|item items IH]; simpl; auto.
Qed.

(** The identifiers the loader produces, and every field of their
    descriptors but the timestamps, are a function of the environment. *)
Lemma load_servers_agree p q :
  environ p = environ q ->
  loader_states_agree (load_servers is_ModelType p) (load_servers is_ModelType q).
Proof.
  intros Henv. unfold load_servers. rewrite Henv.
  apply fold_left_agree; [apply legacy_step_agree|].
  apply fold_left_agree; [apply namespaced_step_agree|].
  apply load_simple_agree. split; [exact Henv | apply same_servers_refl].
Qed.

Lemma load_servers_environ p :
  environ (load_servers is_ModelType p).1 = environ p.
Proof.
  unfold load_servers.
  assert (forall (f : LoaderState -> string * string -> LoaderState) items,
             (forall st item, environ (f st item).1 = environ st.1) ->
             forall st, environ (fold_left f items st).1 = environ st.1) as Hfold.
  { intros f items Hf. induction items as [|i items IH]; simpl; [done|].
    intros st. rewrite IH. apply Hf. }
  rewrite Hfold, Hfold.
  - unfold load_simple. simpl.
    destruct (getenv p "MODEL_SERVER_URL") as [u|]; [|done].
    destruct (PyStr.truthy u); [|done].
    destruct (PyStr.truthy (PyStr.strip u)); [|done].
    destruct (ModelType_of is_ModelType _); reflexivity.
  - intros [q m] [env_var env_value]. unfold namespaced_step. simpl.
    namespaced_guards ltac:(done).
    destruct (ModelType_of is_ModelType _); reflexivity.
  - intros [q m] [env_var env_value]. unfold legacy_step. simpl.
    legacy_guards ltac:(done). reflexivity.
Qed.

End LoaderDeterminism.

(** ** The registry under a fixed environment *)

Section RegistryInvariant.

Variable is_ModelType : string -> bool.

(** The environment the run started with. *)
Variable p0 : Process.

Local Abbreviation inv := (registry_inv is_ModelType p0).

Lemma registry_inv_disjoint st : inv st -> namespaces_disjoint st.2.
Proof.
  intros (_ & Hreg & Hrt & _) sid [Hin_reg Hin_rt].
  exact (Hreg sid Hin_reg (Hrt sid Hin_rt)).
Qed.

Lemma loaded_ids p sid :
  environ p = environ p0 ->
  is_Some ((load_servers is_ModelType p).2 !! sid)
  <-> is_Some ((load_servers is_ModelType p0).2 !! sid).
Proof.
  intros Henv. apply same_servers_is_Some.
  apply (load_servers_agree is_ModelType p p0 Henv).
Qed.

Lemma _load_runtime_servers_spec p self :
  _load_runtime_servers is_ModelType p self
  = ((load_servers is_ModelType p).1,
     set_runtime (load_servers is_ModelType p).2 self).
Proof.
  unfold _load_runtime_servers. destruct (load_servers is_ModelType p). done.
Qed.

Lemma _initialize_inv p self :
  inv (p, self) ->
  inv (_initialize is_ModelType p self)
  /\ _initialized (_initialize is_ModelType p self).2 = true.
Proof.
  intros Hinv. unfold _initialize.
  destruct (_initialized self) eqn:E; [split; [exact Hinv | exact E]|].
  destruct Hinv as (Henv & Hreg & Hrt & Hinit). simpl in *.
  rewrite _load_runtime_servers_spec. simpl.
  split; [|done]. repeat split; simpl.
  - rewrite load_servers_environ. exact Henv.
  - exact Hreg.
  - intros sid. apply (loaded_ids p sid Henv).
  - intros _ sid. apply (loaded_ids p sid Henv).
Qed.

Lemma register_server_inv p self request :
  inv (p, self) ->
  inv (step is_ModelType (p, self) (Register request)).
Proof.
  intros Hinv. apply _initialize_inv in Hinv as [Hinv Hi].
  unfold step, register_server.
  destruct (_initialize is_ModelType p self) as [p1 s1]. simpl in Hi.
  case_bool_decide as Hreg; [exact Hinv|].
  case_bool_decide as Hrt; [exact Hinv|].
  destruct Hinv as (Henv & Hr & Ht & Hinit). simpl in *.
  repeat split; simpl; auto.
  intros sid Hsome Hload.
  destruct (decide (req_server_id request = sid)) as [<-|Hne].
  - apply Hrt, Hinit; assumption.
  - rewrite lookup_insert_ne in Hsome by done. exact (Hr sid Hsome Hload).
Qed.

Lemma update_server_inv p self sid request :
  inv (p, self) ->
  inv (step is_ModelType (p, self) (Update sid request)).
Proof.
  intros Hinv. apply _initialize_inv in Hinv as [Hinv Hi].
  unfold step, update_server.
  destruct (_initialize is_ModelType p self) as [p1 s1]. simpl in Hi.
  case_bool_decide as Hrt; [exact Hinv|].
  destruct (_registered_servers s1 !! sid) as [server|] eqn:E; [|exact Hinv].
  destruct Hinv as (Henv & Hr & Ht & Hinit). simpl in *.
  repeat split; simpl; auto.
  intros k Hsome Hload.
  destruct (decide (sid = k)) as [<-|Hne].
  - apply (Hr sid); [by rewrite E | exact Hload].
  - rewrite lookup_insert_ne in Hsome by done. exact (Hr k Hsome Hload).
Qed.

Lemma delete_server_inv p self sid :
  inv (p, self) ->
  inv (step is_ModelType (p, self) (Delete sid)).
Proof.
  intros Hinv. apply _initialize_inv in Hinv as [Hinv Hi].
  unfold step, delete_server.
  destruct (_initialize is_ModelType p self) as [p1 s1]. simpl in Hi.
  case_bool_decide as Hrt; [exact Hinv|].
  case_bool_decide as Hreg; [|exact Hinv].
  destruct Hinv as (Henv & Hr & Ht & Hinit). simpl in *.
  repeat split; simpl; auto.
  intros k Hsome Hload.
  destruct (decide (sid = k)) as [<-|Hne].
  - rewrite lookup_delete_eq in Hsome. by destruct Hsome.
  - rewrite lookup_delete_ne in Hsome by done. exact (Hr k Hsome Hload).
Qed.

Lemma reload_runtime_servers_inv p self :
  inv (p, self) ->
  inv (step is_ModelType (p, self) ReloadRuntime).
Proof.
  intros (Henv & Hr & Ht & Hinit). simpl in *.
  unfold reload_runtime_servers. rewrite _load_runtime_servers_spec. simpl.
  repeat split; simpl.
  - rewrite load_servers_environ. exact Henv.
  - exact Hr.
  - intros sid. apply (loaded_ids p sid Henv).
  - intros _ sid. apply (loaded_ids p sid Henv).
Qed.

Lemma step_inv st c :
  is_method c = true -> inv st -> inv (step is_ModelType st c).
Proof.
  destruct st as [p self].
  destruct c; intros Hm Hinv; try discriminate Hm.
  - by apply register_server_inv.
  - by apply update_server_inv.
  - by apply delete_server_inv.
  - by apply reload_runtime_servers_inv.
Qed.

Lemma new_service_inv : inv (p0, new_service).
Proof.
  repeat split; simpl.
  - intros sid [? H]. by rewrite lookup_empty in H.
  - intros sid [? H]. by rewrite lookup_empty in H.
  - discriminate.
Qed.

Lemma run_inv calls :
  forallb is_method calls = true -> inv (run is_ModelType p0 calls).
Proof.
  unfold run. generalize (p0, new_service) new_service_inv.
  induction calls as [|c calls IH]; intros st Hinv Hall; simpl in *; [done|].
  apply andb_prop in Hall as [Hc Hall].
  apply IH; [by apply step_inv | exact Hall].
Qed.

End RegistryInvariant.

(** ** The registry: namespaces, collisions and immutability *)

(** C1, as amended: in a run of register, update, delete and reload_runtime
    calls during which the environment is not changed, whatever that
    environment is, no identifier is in both the registered and the runtime
    namespace. *)
Theorem namespaces_disjoint_fixed_environ :
  forall (is_ModelType : string -> bool) (p : Process) (calls : list call),
    forallb is_method calls = true ->
    namespaces_disjoint (run is_ModelType p calls).2.
Proof.
  intros is_ModelType p calls Hcalls.
  apply (registry_inv_disjoint is_ModelType p), run_inv, Hcalls.
Qed.

(** A run of all four methods under an environment that defines the server
    [default]. *)
Lemma namespaces_disjoint_fixed_environ_witness :
  namespaces_disjoint
    (run openai_compatible_only
       (process_with [("MODEL_SERVER_URL", "http://a:8000")])
       [Register (registration_of "default" "http://c:7000");
        Register (registration_of "b" "http://b:9000");
        ReloadRuntime;
        Update "b" (update_base_url_to "http://b:9001");
        Delete "b"]).2.
Proof.
  apply (namespaces_disjoint_fixed_environ openai_compatible_only).
  reflexivity.
Defined.

(** C1, as stated, fails: a server is registered under the identifier [a]
    while the environment defines no server; the environment then gains
    EVAL_HUB_MODEL_SERVER_A_URL, and [reload_runtime_servers] loads the
    identifier [a] into the runtime namespace without looking at the
    registered one. *)
Lemma reload_after_environ_change_overlaps :
  ~ namespaces_disjoint
      (run openai_compatible_only (process_with [])
         [Register (registration_of "a" "http://a:8000");
          SetEnviron [("EVAL_HUB_MODEL_SERVER_A_URL", "http://b:9000")];
          ReloadRuntime]).2.
Proof.
  intros H. apply (H "a"). split; eexists; vm_compute; reflexivity.
Qed.

(** C4, as amended: [register_server] starts with the lazy initialisation,
    which leaves an initialised service as it is and, on a service not yet
    initialised, loads the runtime namespace from the environment.  A request
    whose identifier is in the registered or in the runtime namespace after
    that initialisation makes [register_server] raise and leaves process and
    service as the initialisation left them, that is, on an initialised
    service, as they were; any other request is stored in the registered
    namespace, with both timestamps set to one reading of the clock and the
    other fields taken from the request, the runtime namespace is not
    touched, and the stored descriptor is the one returned. *)
Theorem register_server_collision_or_insert :
  forall (is_ModelType : string -> bool) (p : Process) (self : ModelService)
         (request : ModelServerRegistrationRequest),
    (_initialized self = true ->
     register_acts_on is_ModelType p self request p self)
    /\ register_acts_on is_ModelType p self request
         (_initialize is_ModelType p self).1
         (_initialize is_ModelType p self).2.
Proof.
  intros is_ModelType p self request.
  assert (register_acts_on is_ModelType p self request
            (_initialize is_ModelType p self).1
            (_initialize is_ModelType p self).2) as H.
  { unfold register_acts_on, register_server.
    destruct (_initialize is_ModelType p self) as [p1 s1]. simpl. split.
    - intros [Hreg|Hrt].
      + rewrite bool_decide_eq_true_2 by done. eauto.
      + case_bool_decide; [eauto|]. rewrite bool_decide_eq_true_2 by done. eauto.
    - intros Hnot.
      rewrite !bool_decide_eq_false_2 by tauto.
      eexists _, _. split; [reflexivity|]. repeat split. }
  split; [|exact H].
  intros Hi. unfold _initialize in H. rewrite Hi in H. exact H.
Qed.

(** An initialised service under an environment that defines the server
    [default]: registering [default] raises and changes nothing, and
    registering [c] stores the descriptor with both timestamps set to the
    next reading of the clock. *)
Lemma register_server_collision_or_insert_witness :
  let st :=
    run openai_compatible_only
      (process_with [("MODEL_SERVER_URL", "http://a:8000")])
      [Register (registration_of "b" "http://b:9000")] in
  (exists message,
      register_server openai_compatible_only st.1 st.2
        (registration_of "default" "http://c:7000")
      = (Raised (ValueError message), st.1, st.2))
  /\ (exists server p',
        register_server openai_compatible_only st.1 st.2
          (registration_of "c" "http://c:7000")
        = (Returned server, p',
           set_registered (<["c" := server]> (_registered_servers st.2)) st.2)
        /\ created_at server = clock st.1 0%nat
        /\ updated_at server = clock st.1 0%nat).
Proof.
  cbv zeta.
  set (st := run openai_compatible_only
               (process_with [("MODEL_SERVER_URL", "http://a:8000")])
               [Register (registration_of "b" "http://b:9000")]).
  assert (_initialized st.2 = true) as Hi by (vm_compute; reflexivity).
  split.
  - destruct (register_server_collision_or_insert openai_compatible_only
                st.1 st.2 (registration_of "default" "http://c:7000"))
      as [H _].
    destruct (H Hi) as [Hcollision _]. apply Hcollision.
    right. vm_compute. eexists. reflexivity.
  - destruct (register_server_collision_or_insert openai_compatible_only
                st.1 st.2 (registration_of "c" "http://c:7000"))
      as [H _].
    destruct (H Hi) as [_ Hinsert].
    destruct Hinsert as (server & p' & Hreg & Hc & Hu & _).
    + intros [Hin|Hin]; vm_compute in Hin; destruct Hin as [x Hx];
        discriminate Hx.
    + exists server, p'. split; [exact Hreg|]. split; [exact Hc | exact Hu].
Defined.

(** C4, as stated, fails: [reload_runtime_servers] on a fresh service loads
    the server [default] into the runtime namespace and leaves the service
    uninitialised.  A request for the identifier [default] then collides and
    [register_server] raises, but its lazy initialisation has run the loader
    again: the runtime entry carries the clock readings 2 and 3 where it
    carried 0 and 1, so the runtime namespace is not left unchanged. *)
Lemma register_after_reload_replaces_runtime_entry :
  let st :=
    run openai_compatible_only
      (process_with [("MODEL_SERVER_URL", "http://a:8000")])
      [ReloadRuntime] in
  let out :=
    register_server openai_compatible_only st.1 st.2
      (registration_of "default" "http://c:7000") in
  _initialized st.2 = false
  /\ (created_at <$> (_runtime_servers st.2 !! "default"),
      updated_at <$> (_runtime_servers st.2 !! "default"))
     = (Some 0, Some 1)
  /\ out.1.1
     = Raised (ValueError
         "Server with ID 'default' is specified as runtime server via environment variable")
  /\ (created_at <$> (_runtime_servers out.2 !! "default"),
      updated_at <$> (_runtime_servers out.2 !! "default"))
     = (Some 2, Some 3)
  /\ _runtime_servers out.2 <> _runtime_servers st.2.
Proof.
  cbv zeta.
  split; [vm_compute; reflexivity|].
  split; [vm_compute; reflexivity|].
  split; [vm_compute; reflexivity|].
  split; [vm_compute; reflexivity|].
  intros H.
  apply (f_equal (fun m : gmap string ModelServer =>
                    created_at <$> (m !! "default"))) in H.
  vm_compute in H. discriminate H.
Qed.

(** C5, as amended: [update_server] and [delete_server] start with the lazy
    initialisation, which leaves an initialised service as it is and, on a
    service not yet initialised, loads the runtime namespace from the
    environment.  For every identifier of the runtime namespace after that
    initialisation both raise, and leave process and service, the runtime
    entry included, as the initialisation left them, that is, on an
    initialised service, as they were. *)
Theorem runtime_servers_immutable :
  forall (is_ModelType : string -> bool) (p : Process) (self : ModelService)
         (sid : string) (request : ModelServerUpdateRequest),
    (_initialized self = true ->
     runtime_entry_refused is_ModelType p self sid request p self)
    /\ runtime_entry_refused is_ModelType p self sid request
         (_initialize is_ModelType p self).1
         (_initialize is_ModelType p self).2.
Proof.
  intros is_ModelType p self sid request.
  assert (runtime_entry_refused is_ModelType p self sid request
            (_initialize is_ModelType p self).1
            (_initialize is_ModelType p self).2) as H.
  { unfold runtime_entry_refused, update_server, delete_server.
    destruct (_initialize is_ModelType p self) as [p1 s1]. simpl.
    intros Hrt. rewrite bool_decide_eq_true_2 by done. done. }
  split; [|exact H].
  intros Hi. unfold _initialize in H. rewrite Hi in H. exact H.
Qed.

(** An initialised service under an environment that defines the server
    [default]: updating and deleting [default] raise and change nothing. *)
Lemma runtime_servers_immutable_witness :
  let st :=
    run openai_compatible_only
      (process_with [("MODEL_SERVER_URL", "http://a:8000")])
      [Register (registration_of "b" "http://b:9000")] in
  update_server openai_compatible_only st.1 st.2 "default"
    (update_base_url_to "http://z:1")
  = (Raised (ValueError
       "Cannot update runtime servers specified via environment variables"),
     st.1, st.2)
  /\ delete_server openai_compatible_only st.1 st.2 "default"
     = (Raised (ValueError
          "Cannot delete runtime servers specified via environment variables"),
        st.1, st.2).
Proof.
  cbv zeta.
  set (st := run openai_compatible_only
               (process_with [("MODEL_SERVER_URL", "http://a:8000")])
               [Register (registration_of "b" "http://b:9000")]).
  assert (_initialized st.2 = true) as Hi by (vm_compute; reflexivity).
  destruct (runtime_servers_immutable openai_compatible_only
              st.1 st.2 "default" (update_base_url_to "http://z:1"))
    as [H _].
  apply (H Hi). vm_compute. eexists. reflexivity.
Defined.

(** C5, as stated, fails after [reload_runtime_servers] on a fresh service,
    which loads the server [default] into the runtime namespace and leaves
    the service uninitialised.  Under the same environment [update_server]
    and [delete_server] raise for [default], but their lazy initialisation
    has run the loader again and the runtime entry carries the clock reading
    2 where it carried 0.  When the environment has lost MODEL_SERVER_URL
    in between, the loader empties the runtime namespace and neither method
    raises: [update_server] returns [None] and [delete_server] returns
    [False]. *)
Lemma refused_call_after_reload_replaces_runtime_entry :
  let st :=
    run openai_compatible_only
      (process_with [("MODEL_SERVER_URL", "http://a:8000")])
      [ReloadRuntime] in
  let updated :=
    update_server openai_compatible_only st.1 st.2 "default"
      (update_base_url_to "http://z:1") in
  let deleted := delete_server openai_compatible_only st.1 st.2 "default" in
  let st' := step openai_compatible_only st (SetEnviron []) in
  let updated' :=
    update_server openai_compatible_only st'.1 st'.2 "default"
      (update_base_url_to "http://z:1") in
  let deleted' := delete_server openai_compatible_only st'.1 st'.2 "default" in
  created_at <$> (_runtime_servers st.2 !! "default") = Some 0
  /\ updated.1.1
     = Raised (ValueError
         "Cannot update runtime servers specified via environment variables")
  /\ deleted.1.1
     = Raised (ValueError
         "Cannot delete runtime servers specified via environment variables")
  /\ created_at <$> (_runtime_servers updated.2 !! "default") = Some 2
  /\ created_at <$> (_runtime_servers deleted.2 !! "default") = Some 2
  /\ _runtime_servers updated.2 <> _runtime_servers st.2
  /\ _runtime_servers deleted.2 <> _runtime_servers st.2
  /\ base_url <$> (_runtime_servers st'.2 !! "default") = Some "http://a:8000"
  /\ updated'.1.1 = Returned None
  /\ deleted'.1.1 = Returned false
  /\ _runtime_servers updated'.2 !! "default" = None
  /\ _runtime_servers deleted'.2 !! "default" = None.
Proof.
  cbv zeta.
  repeat (split; [try (vm_compute; reflexivity)|]);
    try (vm_compute; reflexivity);
    intros H;
    apply (f_equal (fun m : gmap string ModelServer =>
                      created_at <$> (m !! "default"))) in H;
    vm_compute in H; discriminate H.
Qed.

(** ** The loader: reloads and the three patterns *)

(** C7, as amended: two successive calls of [reload_runtime_servers] under
    an unchanged environment leave runtime mappings with the same
    identifiers and, under each identifier, descriptors equal in every field
    but [created_at] and [updated_at], which each load reads from the clock;
    neither call changes the environment or the registered namespace. *)
Theorem reload_twice_same_but_timestamps :
  forall (is_ModelType : string -> bool) (p : Process) (self : ModelService),
    let first := reload_runtime_servers is_ModelType p self in
    let second := reload_runtime_servers is_ModelType first.1 first.2 in
    (forall sid : string,
        is_Some (_runtime_servers first.2 !! sid)
        <-> is_Some (_runtime_servers second.2 !! sid))
    /\ (forall (sid : string) (a b : ModelServer),
           _runtime_servers first.2 !! sid = Some a ->
           _runtime_servers second.2 !! sid = Some b ->
           server_id a = server_id b /\ server_type a = server_type b
           /\ base_url a = base_url b
           /\ api_key_required a = api_key_required b
           /\ models a = models b /\ server_config a = server_config b
           /\ status a = status b /\ tags a = tags b)
    /\ environ first.1 = environ p
    /\ environ second.1 = environ p
    /\ _registered_servers second.2 = _registered_servers self.
Proof.
  intros is_ModelType p self first second. subst second first.
  unfold reload_runtime_servers. rewrite !_load_runtime_servers_spec. simpl.
  assert (same_servers_but_timestamps
            (load_servers is_ModelType p).2
            (load_servers is_ModelType
               (logger_info "Runtime servers reloaded from environment variables"
                  [] (load_servers is_ModelType p).1)).2) as Hsame.
  { apply (load_servers_agree is_ModelType). simpl.
    symmetry. apply load_servers_environ. }
  split; [intros sid; by apply same_servers_is_Some|].
  split.
  { intros sid a b Ha Hb. specialize (Hsame sid).
    rewrite Ha, Hb in Hsame. by inversion Hsame. }
  split; [apply load_servers_environ|].
  split; [|reflexivity].
  rewrite load_servers_environ. simpl. apply load_servers_environ.
Qed.

(** C7, as stated, fails: with MODEL_SERVER_URL set and a clock that
    advances, the descriptor of [default] carries the time of the first load
    after the first call and the time of the second load after the second,
    so the two runtime mappings are not equal. *)
Lemma reload_twice_not_identical :
  let first :=
    reload_runtime_servers openai_compatible_only
      (process_with [("MODEL_SERVER_URL", "http://a:8000")]) new_service in
  let second := reload_runtime_servers openai_compatible_only first.1 first.2 in
  environ second.1 = environ first.1
  /\ created_at <$> (_runtime_servers first.2 !! "default") = Some 0
  /\ created_at <$> (_runtime_servers second.2 !! "default") = Some 2
  /\ _runtime_servers first.2 <> _runtime_servers second.2.
Proof.
  cbv zeta. repeat split; try (vm_compute; reflexivity).
  intros H.
  apply (f_equal (fun m : gmap string ModelServer => created_at <$> (m !! "default"))) in H.
  vm_compute in H. discriminate H.
Qed.

(** C6 fails on the code: the legacy loop tests the identifier derived from
    the variable name ([x]) and only then reads the companion _ID variable,
    so the entry [default] of the simple pattern is replaced by the legacy
    server. *)
Lemma legacy_id_override_replaces_entry :
  let p :=
    process_with [("MODEL_SERVER_URL", "http://a:8000");
                  ("MODEL_SERVER_MODELS", "m1,m2");
                  ("EVAL_HUB_MODEL_X_URL", "http://b:9000");
                  ("EVAL_HUB_MODEL_X_ID", "default")] in
  let after_simple := load_simple openai_compatible_only (p, ∅) in
  let after_namespaced :=
    fold_left (namespaced_step openai_compatible_only) (environ p) after_simple in
  let final := load_servers openai_compatible_only p in
  (base_url <$> (after_namespaced.2 !! "default") = Some "http://a:8000"
   /\ (map model_name ∘ models) <$> (after_namespaced.2 !! "default")
      = Some ["m1"; "m2"])
  /\ (base_url <$> (final.2 !! "default") = Some "http://b:9000"
      /\ (map model_name ∘ models) <$> (final.2 !! "default") = Some ["default"])
  /\ final.2 !! "x" = None.
Proof. cbv zeta. repeat split; vm_compute; reflexivity. Qed.

(** What the test of the legacy loop does ensure: a variable whose derived
    identifier is in the dictionary is passed over. *)
Lemma legacy_step_skips_derived_identifier
  (is_ModelType : string -> bool) (p : Process) (m : gmap string ModelServer)
  (env_var env_value group1 : string) :
  PyStr.re_match_URL "EVAL_HUB_MODEL_" env_var = Some group1 ->
  is_Some (m !! PyStr.lower group1) ->
  legacy_step is_ModelType (p, m) (env_var, env_value) = (p, m).
Proof.
  intros Hmatch Hin. unfold legacy_step. rewrite Hmatch.
  destruct (_ && _); [|reflexivity].
  by rewrite bool_decide_eq_true_2.
Qed.

(** C9: every server the loader builds requires an API key, is active and
    tagged exactly [runtime], and each of its models is active and tagged
    exactly [runtime] ([runtime_shaped]): each of the three patterns turns a
    dictionary of such servers into one, so the dictionary the loader returns and
    the runtime namespace it assigns hold only such servers. *)
Theorem loader_servers_runtime_shaped :
  forall is_ModelType : string -> bool,
    (forall st : LoaderState,
        servers_runtime_shaped st.2 ->
        servers_runtime_shaped (load_simple is_ModelType st).2)
    /\ (forall (st : LoaderState) (item : string * string),
           servers_runtime_shaped st.2 ->
           servers_runtime_shaped (namespaced_step is_ModelType st item).2)
    /\ (forall (st : LoaderState) (item : string * string),
           servers_runtime_shaped st.2 ->
           servers_runtime_shaped (legacy_step is_ModelType st item).2)
    /\ (forall (p : Process) (sid : string) (server : ModelServer),
           (load_servers is_ModelType p).2 !! sid = Some server ->
           api_key_required server = true
           /\ status server = ACTIVE
           /\ tags server = ["runtime"]
           /\ forall m, In m (models server) ->
                        model_status m = ACTIVE /\ model_tags m = ["runtime"])
    /\ (forall (p : Process) (self : ModelService),
           servers_runtime_shaped
             (_runtime_servers (_load_runtime_servers is_ModelType p self).2)).
Proof.
  intros is_ModelType.
  split; [apply load_simple_shaped|].
  split; [apply namespaced_step_shaped|].
  split; [apply legacy_step_shaped|].
  split.
  - intros p sid server Hlook.
    exact (load_servers_shaped is_ModelType p sid server Hlook).
  - intros p self. unfold _load_runtime_servers.
    pose proof (load_servers_shaped is_ModelType p) as H.
    destruct (load_servers is_ModelType p) as [p' servers]. exact H.
Qed.

(** C10: when MODEL_SERVER_URL is set and empty once trimmed, the simple
    pattern leaves dictionary, log and clock as they are, and the loader
    goes on with the two loops; the namespaced loop, for a variable whose
    value is empty once trimmed, adds one warning to the log. *)
Theorem empty_simple_url_skipped_silently :
  forall (is_ModelType : string -> bool) (p : Process)
         (runtime_servers : gmap string ModelServer) (value : string),
    getenv p "MODEL_SERVER_URL" = Some value ->
    PyStr.strip value = "" ->
    load_simple is_ModelType (p, runtime_servers) = (p, runtime_servers)
    /\ load_servers is_ModelType p
       = fold_left (legacy_step is_ModelType) (environ p)
           (fold_left (namespaced_step is_ModelType) (environ p) (p, ∅))
    /\ forall (q : Process) (m : gmap string ModelServer)
              (env_var env_value group1 : string),
         PyStr.startswith env_var "EVAL_HUB_MODEL_SERVER_" = true ->
         PyStr.endswith env_var "_URL" = true ->
         PyStr.re_match_URL "EVAL_HUB_MODEL_SERVER_" env_var = Some group1 ->
         PyStr.strip env_value = "" ->
         namespaced_step is_ModelType (q, m) (env_var, env_value)
         = (emit {| level := WARNING;
                    event := "Empty URL for runtime server "
                             +:+ PyStr.lower group1 +:+ ", skipping";
                    fields := [] |} q, m).
Proof.
  intros is_ModelType p runtime_servers value Hget Hstrip.
  assert (forall m, load_simple is_ModelType (p, m) = (p, m)) as Hsimple.
  { intros m. unfold load_simple. rewrite Hget.
    destruct (PyStr.truthy value); [|done]. by rewrite Hstrip. }
  split; [apply Hsimple|]. split.
  - unfold load_servers. by rewrite Hsimple.
  - intros q m env_var env_value group1 Hstart Hend Hmatch Hempty.
    unfold namespaced_step. by rewrite Hstart, Hend, Hmatch, Hempty.
Qed.

(** Blank URLs for both patterns: no server, and the one warning of the
    namespaced pattern. *)
Lemma empty_simple_url_skipped_silently_witness :
  let p :=
    process_with [("MODEL_SERVER_URL", "   ");
                  ("EVAL_HUB_MODEL_SERVER_A_URL", " ")] in
  load_simple openai_compatible_only (p, ∅) = (p, ∅)
  /\ (load_servers openai_compatible_only p).2 = ∅
  /\ map level (log (load_servers openai_compatible_only p).1) = [WARNING].
Proof.
  cbv zeta. split.
  - apply (empty_simple_url_skipped_silently openai_compatible_only
             (process_with [("MODEL_SERVER_URL", "   ");
                            ("EVAL_HUB_MODEL_SERVER_A_URL", " ")]) ∅ "   ");
      reflexivity.
  - split; vm_compute; reflexivity.
Defined.

(** ** Names of the legacy form *)

Section LegacyNames.

Lemma prefix_append (p s : string) : String.prefix p (p +:+ s) = true.
Proof.
  induction p as [|c p IH]; simpl; [by destruct s|].
  destruct (ascii_dec c c); [exact IH | contradiction].
Qed.

Lemma drop_append (p s : string) : PyStr.drop (String.length p) (p +:+ s) = s.
Proof. induction p as [|c p IH]; simpl; [by destruct s | exact IH]. Qed.

Lemma endswith_append (s suffix : string) :
  PyStr.endswith (s +:+ suffix) suffix = true.
Proof.
  induction s as [|c s IH].
  - change ("" +:+ suffix) with suffix.
    destruct suffix; cbn [PyStr.endswith]; by rewrite String.eqb_refl.
  - change (String c s +:+ suffix) with (String c (s +:+ suffix)).
    cbn [PyStr.endswith].
    destruct (String.eqb _ _); [reflexivity | exact IH].
Qed.

Lemma group_before_URL_exact (g : string) :
  g <> "" -> has_newline g = false ->
  PyStr.group_before_URL (g +:+ "_URL") = Some g.
Proof.
  induction g as [|c g IH]; [done|]. intros _ Hnl.
  cbn [has_newline] in Hnl. apply orb_false_elim in Hnl as [Hc Hg].
  change (String c g +:+ "_URL") with (String c (g +:+ "_URL")).
  cbn [PyStr.group_before_URL]. rewrite Hc.
  destruct g as [|d g].
  - reflexivity.
  - rewrite IH by done. reflexivity.
Qed.

Lemma re_match_URL_exact (prefix g : string) :
  g <> "" -> has_newline g = false ->
  PyStr.re_match_URL prefix (prefix +:+ g +:+ "_URL") = Some g.
Proof.
  intros Hne Hnl. unfold PyStr.re_match_URL.
  rewrite prefix_append, drop_append. by apply group_before_URL_exact.
Qed.

End LegacyNames.

Section LegacyPattern.

Variable is_ModelType : string -> bool.

Lemma legacy_step_keeps_single_model st item sid :
  (exists server, st.2 !! sid = Some server /\ single_model_server sid server) ->
  exists server,
    (legacy_step is_ModelType st item).2 !! sid = Some server
    /\ single_model_server sid server.
Proof.
  destruct st as [p m], item as [env_var env_value]. intros H.
  unfold legacy_step.
  legacy_guards ltac:(exact H).
  cbn [snd runtime_server utcnow fst].
  set (sid' := getenv_or p _ _).
  destruct (decide (sid' = sid)) as [E|Hne].
  - rewrite E, lookup_insert_eq. eexists. split; [reflexivity|]. by split.
  - rewrite lookup_insert_ne by done. exact H.
Qed.

Lemma legacy_loop_keeps_single_model items st sid :
  (exists server, st.2 !! sid = Some server /\ single_model_server sid server) ->
  exists server,
    (fold_left (legacy_step is_ModelType) items st).2 !! sid = Some server
    /\ single_model_server sid server.
Proof.
  revert st. induction items as [|item items IH]; intros st H; [exact H|].
  simpl. apply IH. by apply legacy_step_keeps_single_model.
Qed.

End LegacyPattern.

Lemma endswith_append_after (p s suffix : string) :
  PyStr.endswith (p +:+ s +:+ suffix) suffix = true.
Proof.
  induction p as [|c p IH].
  - exact (endswith_append s suffix).
  - change (String c p +:+ s +:+ suffix) with (String c (p +:+ s +:+ suffix)).
    cbn [PyStr.endswith].
    destruct (String.eqb _ _); [reflexivity | exact IH].
Qed.

Lemma truthy_nonempty (s : string) : s <> "" -> PyStr.truthy s = true.
Proof. by destruct s. Qed.

(** C8, as amended: a variable EVAL_HUB_MODEL_<ID>_URL whose <ID> is not
    empty and has no line break, whose name does not contain SERVER anywhere,
    whose value is not empty once trimmed, and whose identifier (the
    lower-cased <ID>) is not yet in the dictionary, makes the legacy loop
    store, under the server identifier (the companion _ID variable when set,
    the lower-cased <ID> otherwise), a server with that identifier, the
    trimmed value as base URL and exactly one model named after the server
    identifier; whatever the rest of the loop does, the entry under that
    identifier remains a server with exactly that one model. *)
Theorem legacy_variable_gives_single_model_server :
  forall (is_ModelType : string -> bool) (p : Process)
         (m : gmap string ModelServer) (id env_value : string)
         (rest : list (string * string)),
    let env_var := "EVAL_HUB_MODEL_" +:+ id +:+ "_URL" in
    let sid :=
      getenv_or p ("EVAL_HUB_MODEL_" +:+ id +:+ "_ID") (PyStr.lower id) in
    let after := legacy_step is_ModelType (p, m) (env_var, env_value) in
    id <> "" ->
    has_newline id = false ->
    PyStr.contains "SERVER" env_var = false ->
    PyStr.strip env_value <> "" ->
    m !! PyStr.lower id = None ->
    (exists server,
        after.2 = <[sid := server]> m
        /\ server_id server = sid
        /\ base_url server = PyStr.strip env_value
        /\ models server = [runtime_model sid]
        /\ map model_name (models server) = [sid])
    /\ (exists server,
           (fold_left (legacy_step is_ModelType) rest after).2 !! sid = Some server
           /\ server_id server = sid
           /\ models server = [runtime_model sid]).
Proof.
  intros is_ModelType p m id env_value rest env_var sid after
    Hid Hnl Hserver Hurl Hfresh.
  assert (exists server,
             after.2 = <[sid := server]> m
             /\ server_id server = sid
             /\ base_url server = PyStr.strip env_value
             /\ models server = [runtime_model sid]) as (server & Hafter & Hs).
  { subst after sid env_var. unfold legacy_step, PyStr.startswith.
    rewrite prefix_append, endswith_append_after, Hserver.
    rewrite re_match_URL_exact by assumption.
    cbn [andb negb].
    rewrite bool_decide_eq_false_2
      by (rewrite Hfresh; intros [? ?]; discriminate).
    rewrite truthy_nonempty by assumption.
    cbn [negb runtime_server utcnow fst snd].
    eexists. split; [reflexivity|]. repeat split. }
  split.
  - exists server. destruct Hs as (Hsid & Hbase & Hmodels).
    repeat split; try assumption. by rewrite Hmodels.
  - apply legacy_loop_keeps_single_model. exists server.
    rewrite Hafter, lookup_insert_eq. split; [reflexivity|].
    destruct Hs as (Hsid & _ & Hmodels). by split.
Qed.

(** A legacy variable with a companion _ID variable: the server is stored
    under the overriding identifier, with one model of that name. *)
Lemma legacy_variable_gives_single_model_server_witness :
  let p :=
    process_with [("EVAL_HUB_MODEL_LLAMA_URL", " http://l:1 ");
                  ("EVAL_HUB_MODEL_LLAMA_ID", "llama-3");
                  ("EVAL_HUB_MODEL_OTHER_URL", "http://o:2")] in
  exists server,
    (load_servers openai_compatible_only p).2 !! "llama-3" = Some server
    /\ server_id server = "llama-3"
    /\ models server = [runtime_model "llama-3"].
Proof.
  cbv zeta.
  apply (legacy_variable_gives_single_model_server openai_compatible_only
           (process_with [("EVAL_HUB_MODEL_LLAMA_URL", " http://l:1 ");
                          ("EVAL_HUB_MODEL_LLAMA_ID", "llama-3");
                          ("EVAL_HUB_MODEL_OTHER_URL", "http://o:2")])
           ∅ "LLAMA" " http://l:1 "
           [("EVAL_HUB_MODEL_LLAMA_ID", "llama-3");
            ("EVAL_HUB_MODEL_OTHER_URL", "http://o:2")]).
  - discriminate.
  - reflexivity.
  - reflexivity.
  - discriminate.
  - reflexivity.
Defined.

(** C8, as stated, fails: EVAL_HUB_MODEL_MYSERVER_URL has the legacy form,
    does not start with the prefix EVAL_HUB_MODEL_SERVER_ of the namespaced
    pattern, has a non-empty value, and its identifier [myserver] is in no
    dictionary; the legacy loop skips it all the same, because its name
    contains SERVER, and the loader produces no server. *)
Lemma legacy_skips_name_containing_SERVER :
  let env_var := "EVAL_HUB_MODEL_" +:+ "MYSERVER" +:+ "_URL" in
  let p := process_with [(env_var, "http://x:8000")] in
  let before :=
    fold_left (namespaced_step openai_compatible_only) (environ p)
      (load_simple openai_compatible_only (p, ∅)) in
  PyStr.startswith env_var "EVAL_HUB_MODEL_SERVER_" = false
  /\ PyStr.strip "http://x:8000" <> ""
  /\ before.2 !! "myserver" = None
  /\ legacy_step openai_compatible_only before (env_var, "http://x:8000") = before
  /\ (load_servers openai_compatible_only p).2 = ∅.
Proof.
  cbv zeta. repeat split; try (vm_compute; reflexivity).
  vm_compute. discriminate.
Qed.

(** A line break in <ID> has the same effect: the pattern [(.+)_URL] does not
    match the name, and the legacy loop passes it over. *)
Lemma legacy_skips_name_with_line_break :
  let env_var :=
    "EVAL_HUB_MODEL_" +:+ String "A" (String PyStr.newline "B") +:+ "_URL" in
  let p := process_with [(env_var, "http://x:8000")] in
  PyStr.re_match_URL "EVAL_HUB_MODEL_" env_var = None
  /\ (load_servers openai_compatible_only p).2 = ∅.
Proof. cbv zeta. split; vm_compute; reflexivity. Qed.

(** * Further properties of the code *)

(** ** Lazy initialisation *)

Section Initialisation.

Variable is_ModelType : string -> bool.

Lemma _initialize_initialized p self :
  _initialized (_initialize is_ModelType p self).2 = true.
Proof.
  unfold _initialize. destruct (_initialized self) eqn:E; [exact E|].
  by rewrite _load_runtime_servers_spec.
Qed.

Lemma _initialize_registered p self :
  _registered_servers (_initialize is_ModelType p self).2
  = _registered_servers self.
Proof.
  unfold _initialize. destruct (_initialized self); [reflexivity|].
  by rewrite _load_runtime_servers_spec.
Qed.

Lemma _initialize_done p self :
  _initialized self = true -> _initialize is_ModelType p self = (p, self).
Proof. intros Hi. unfold _initialize. by rewrite Hi. Qed.

Lemma _initialize_twice p self :
  _initialize is_ModelType (_initialize is_ModelType p self).1
    (_initialize is_ModelType p self).2
  = _initialize is_ModelType p self.
Proof.
  rewrite _initialize_done by apply _initialize_initialized.
  by destruct (_initialize is_ModelType p self).
Qed.

End Initialisation.

(** ** Register, look up, update, delete *)

(** A successful [register_server] is seen by [get_server_by_id]: the lookup
    of the identifier of the request returns the descriptor that
    [register_server] returned, and changes nothing. *)
Theorem register_then_get :
  forall (is_ModelType : string -> bool) (p p1 : Process)
         (self s1 : ModelService) (request : ModelServerRegistrationRequest)
         (server : ModelServer),
    register_server is_ModelType p self request = (Returned server, p1, s1) ->
    get_server_by_id is_ModelType p1 s1 (req_server_id request)
    = (Some server, p1, s1).
Proof.
  intros is_ModelType p p1 self s1 request server H.
  unfold register_server in H.
  pose proof (_initialize_initialized is_ModelType p self) as Hi.
  destruct (_initialize is_ModelType p self) as [p0 s0]. simpl in Hi.
  case_bool_decide; [discriminate H|].
  case_bool_decide; [discriminate H|].
  injection H as <- <- <-.
  unfold get_server_by_id.
  rewrite _initialize_done by exact Hi.
  cbn [_registered_servers set_registered]. by rewrite lookup_insert_eq.
Qed.

(** The theorem on a fresh service. *)
Lemma register_then_get_witness :
  let p := process_with [("MODEL_SERVER_URL", "http://a:8000")] in
  let r :=
    register_server openai_compatible_only p new_service
      (registration_of "b" "http://b:9000") in
  get_server_by_id openai_compatible_only r.1.2 r.2 "b"
  = (Some {| server_id := "b"; server_type := OPENAI_COMPATIBLE;
             base_url := "http://b:9000"; api_key_required := false;
             models := []; server_config := None; status := ACTIVE;
             tags := []; created_at := 2; updated_at := 2 |}, r.1.2, r.2).
Proof.
  cbv zeta.
  apply (register_then_get openai_compatible_only
           (process_with [("MODEL_SERVER_URL", "http://a:8000")]) _
           new_service _ (registration_of "b" "http://b:9000")).
  reflexivity.
Defined.

(** [delete_server] returns whether the identifier was registered.  When it
    returns [False] it has changed nothing beyond the lazy initialisation;
    when it returns [True] the identifier is no longer registered, every
    other registered entry and the runtime namespace are as before, and
    the identifier is not in the runtime namespace either. *)
Theorem delete_server_result :
  forall (is_ModelType : string -> bool) (p p1 : Process)
         (self s1 : ModelService) (sid : string) (removed : bool),
    delete_server is_ModelType p self sid = (Returned removed, p1, s1) ->
    (removed = true <-> is_Some (_registered_servers self !! sid))
    /\ (removed = false -> (p1, s1) = _initialize is_ModelType p self)
    /\ _registered_servers s1 = delete sid (_registered_servers self)
    /\ _runtime_servers s1
       = _runtime_servers (_initialize is_ModelType p self).2
    /\ _runtime_servers s1 !! sid = None.
Proof.
  intros is_ModelType p p1 self s1 sid removed H.
  unfold delete_server in H.
  pose proof (_initialize_registered is_ModelType p self) as Hreg.
  destruct (_initialize is_ModelType p self) as [p0 s0]. simpl in Hreg |- *.
  case_bool_decide as Hrt; [discriminate H|].
  assert (_runtime_servers s0 !! sid = None) as Hnone.
  { destruct (_runtime_servers s0 !! sid) eqn:E; [|done].
    destruct Hrt. by eexists. }
  case_bool_decide as Hin; injection H as <- <- <-.
  - rewrite Hreg in Hin.
    cbn [_registered_servers _runtime_servers set_registered]. rewrite Hreg.
    split; [split; [intros _; exact Hin | reflexivity]|].
    split; [discriminate|]. split; [reflexivity|]. split; [reflexivity|].
    exact Hnone.
  - rewrite Hreg in Hin.
    split; [split; [discriminate | intros Hs; by destruct Hin]|].
    split; [reflexivity|]. split.
    { rewrite Hreg. symmetry. apply delete_id.
      destruct (_registered_servers self !! sid) eqn:E; [|done].
      destruct Hin. by eexists. }
    split; [reflexivity | exact Hnone].
Qed.

(** Deleting a registered identifier of a service that has two. *)
Lemma delete_server_result_witness :
  let st :=
    run openai_compatible_only (process_with [])
      [Register (registration_of "a" "http://a:8000");
       Register (registration_of "b" "http://b:9000")] in
  let r := delete_server openai_compatible_only st.1 st.2 "a" in
  (true = true <-> is_Some (_registered_servers st.2 !! "a"))
  /\ (true = false ->
      (r.1.2, r.2) = _initialize openai_compatible_only st.1 st.2)
  /\ _registered_servers r.2 = delete "a" (_registered_servers st.2)
  /\ _runtime_servers r.2
     = _runtime_servers (_initialize openai_compatible_only st.1 st.2).2
  /\ _runtime_servers r.2 !! "a" = None.
Proof.
  cbv zeta.
  apply (delete_server_result openai_compatible_only
           (run openai_compatible_only (process_with [])
              [Register (registration_of "a" "http://a:8000");
               Register (registration_of "b" "http://b:9000")]).1).
  reflexivity.
Defined.

(** Deleting twice: whatever the first [delete_server] returned, a second
    one for the same identifier returns [False] and changes nothing. *)
Theorem delete_server_twice :
  forall (is_ModelType : string -> bool) (p p1 : Process)
         (self s1 : ModelService) (sid : string) (removed : bool),
    delete_server is_ModelType p self sid = (Returned removed, p1, s1) ->
    delete_server is_ModelType p1 s1 sid = (Returned false, p1, s1).
Proof.
  intros is_ModelType p p1 self s1 sid removed H.
  pose proof (delete_server_result is_ModelType p p1 self s1 sid removed H)
    as (_ & _ & Hreg & _ & Hrt).
  assert (_initialized s1 = true) as Hi.
  { unfold delete_server in H.
    pose proof (_initialize_initialized is_ModelType p self) as Hi.
    destruct (_initialize is_ModelType p self) as [p0 s0]. simpl in Hi.
    case_bool_decide; [discriminate H|].
    case_bool_decide; injection H as <- <- <-; exact Hi. }
  unfold delete_server. rewrite _initialize_done by exact Hi.
  rewrite bool_decide_eq_false_2
    by (rewrite Hrt; intros [? ?]; discriminate).
  rewrite bool_decide_eq_false_2; [reflexivity|].
  rewrite Hreg, lookup_delete_eq. intros [? ?]; discriminate.
Qed.

Lemma delete_server_twice_witness :
  let st :=
    run openai_compatible_only (process_with [])
      [Register (registration_of "a" "http://a:8000")] in
  let r := delete_server openai_compatible_only st.1 st.2 "a" in
  delete_server openai_compatible_only r.1.2 r.2 "a"
  = (Returned false, r.1.2, r.2).
Proof.
  cbv zeta.
  apply (delete_server_twice openai_compatible_only
           (run openai_compatible_only (process_with [])
              [Register (registration_of "a" "http://a:8000")]).1
           _
           (run openai_compatible_only (process_with [])
              [Register (registration_of "a" "http://a:8000")]).2
           _ "a" true).
  reflexivity.
Defined.

(** Registering and then deleting an identifier brings the registered
    namespace back to what it was, and leaves the runtime namespace as
    [register_server] found it. *)
Theorem register_then_delete :
  forall (is_ModelType : string -> bool) (p p1 : Process)
         (self s1 : ModelService) (request : ModelServerRegistrationRequest)
         (server : ModelServer),
    register_server is_ModelType p self request = (Returned server, p1, s1) ->
    exists p2 s2,
      delete_server is_ModelType p1 s1 (req_server_id request)
      = (Returned true, p2, s2)
      /\ _registered_servers s2 = _registered_servers self
      /\ _runtime_servers s2 = _runtime_servers s1.
Proof.
  intros is_ModelType p p1 self s1 request server H.
  unfold register_server in H.
  pose proof (_initialize_initialized is_ModelType p self) as Hi.
  pose proof (_initialize_registered is_ModelType p self) as Hreg.
  destruct (_initialize is_ModelType p self) as [p0 s0]. simpl in Hi, Hreg.
  case_bool_decide as Hin; [discriminate H|].
  case_bool_decide as Hrt; [discriminate H|].
  injection H as <- <- <-.
  unfold delete_server. rewrite _initialize_done by exact Hi.
  cbn [_registered_servers _runtime_servers set_registered].
  rewrite (bool_decide_eq_false_2 _ Hrt).
  rewrite bool_decide_eq_true_2 by (rewrite lookup_insert_eq; by eexists).
  eexists _, _. split; [reflexivity|].
  cbn [_registered_servers _runtime_servers set_registered].
  split; [|reflexivity].
  rewrite delete_insert_id; [exact Hreg|].
  destruct (_registered_servers s0 !! req_server_id request) eqn:E; [|done].
  destruct Hin. by eexists.
Qed.

Lemma register_then_delete_witness :
  let p := process_with [("MODEL_SERVER_URL", "http://a:8000")] in
  let r :=
    register_server openai_compatible_only p new_service
      (registration_of "b" "http://b:9000") in
  exists p2 s2,
    delete_server openai_compatible_only r.1.2 r.2 "b" = (Returned true, p2, s2)
    /\ _registered_servers s2 = ∅
    /\ _runtime_servers s2 = _runtime_servers r.2.
Proof.
  cbv zeta.
  apply (register_then_delete openai_compatible_only
           (process_with [("MODEL_SERVER_URL", "http://a:8000")]) _
           new_service _ (registration_of "b" "http://b:9000")
           {| server_id := "b"; server_type := OPENAI_COMPATIBLE;
              base_url := "http://b:9000"; api_key_required := false;
              models := []; server_config := None; status := ACTIVE;
              tags := []; created_at := 2; updated_at := 2 |}).
  reflexivity.
Defined.

(** [update_server] for an identifier that is in neither namespace returns
    [None]: it raises nothing, reads no clock, writes no log record, and the
    service is as the lazy initialisation left it. *)
Theorem update_server_unknown :
  forall (is_ModelType : string -> bool) (p : Process) (self : ModelService)
         (sid : string) (request : ModelServerUpdateRequest),
    _registered_servers self !! sid = None ->
    _runtime_servers (_initialize is_ModelType p self).2 !! sid = None ->
    update_server is_ModelType p self sid request
    = (Returned None, (_initialize is_ModelType p self).1,
       (_initialize is_ModelType p self).2).
Proof.
  intros is_ModelType p self sid request Hreg Hrt.
  unfold update_server.
  pose proof (_initialize_registered is_ModelType p self) as Hsame.
  destruct (_initialize is_ModelType p self) as [p0 s0]. simpl in *.
  rewrite bool_decide_eq_false_2
    by (rewrite Hrt; intros [? ?]; discriminate).
  by rewrite Hsame, Hreg.
Qed.

Lemma update_server_unknown_witness :
  let p := process_with [("MODEL_SERVER_URL", "http://a:8000")] in
  update_server openai_compatible_only p new_service "nobody"
    (update_base_url_to "http://n:1")
  = (Returned None, (_initialize openai_compatible_only p new_service).1,
     (_initialize openai_compatible_only p new_service).2).
Proof.
  cbv zeta.
  apply (update_server_unknown openai_compatible_only
           (process_with [("MODEL_SERVER_URL", "http://a:8000")])
           new_service "nobody" (update_base_url_to "http://n:1"));
    reflexivity.
Defined.

(** A successful [update_server] changes the one registered entry only: the
    returned descriptor keeps the identifier, the type and the creation time
    of the stored one, takes each of the other fields from the request when
    the request gives it and from the stored descriptor otherwise, carries a
    new reading of the clock as update time even when the request gives no
    field, and is what [get_server_by_id] returns afterwards; every other
    identifier and the runtime namespace are untouched. *)
Theorem update_server_partial :
  forall (is_ModelType : string -> bool) (p p1 : Process)
         (self s1 : ModelService) (sid : string)
         (request : ModelServerUpdateRequest) (updated : ModelServer),
    update_server is_ModelType p self sid request
    = (Returned (Some updated), p1, s1) ->
    exists stored : ModelServer,
      _registered_servers self !! sid = Some stored
      /\ server_id updated = server_id stored
      /\ server_type updated = server_type stored
      /\ created_at updated = created_at stored
      /\ updated_at updated = clock (_initialize is_ModelType p self).1 0%nat
      /\ base_url updated = default (base_url stored) (upd_base_url request)
      /\ api_key_required updated
         = default (api_key_required stored) (upd_api_key_required request)
      /\ models updated = default (models stored) (upd_models request)
      /\ server_config updated
         = match upd_server_config request with
           | Some c => Some c
           | None => server_config stored
           end
      /\ status updated = default (status stored) (upd_status request)
      /\ tags updated = default (tags stored) (upd_tags request)
      /\ _registered_servers s1 = <[sid := updated]> (_registered_servers self)
      /\ _runtime_servers s1
         = _runtime_servers (_initialize is_ModelType p self).2
      /\ get_server_by_id is_ModelType p1 s1 sid = (Some updated, p1, s1).
Proof.
  intros is_ModelType p p1 self s1 sid request updated H.
  unfold update_server in H.
  pose proof (_initialize_registered is_ModelType p self) as Hsame.
  pose proof (_initialize_initialized is_ModelType p self) as Hi.
  destruct (_initialize is_ModelType p self) as [p0 s0]. simpl in Hsame, Hi |- *.
  case_bool_decide as Hrt; [discriminate H|].
  rewrite Hsame in H.
  destruct (_registered_servers self !! sid) as [stored|] eqn:E;
    [|discriminate H].
  injection H as <- <- <-.
  exists stored. split; [reflexivity|].
  do 10 (split; [reflexivity|]).
  cbn [_registered_servers _runtime_servers set_registered].
  split; [reflexivity|]. split; [reflexivity|].
  unfold get_server_by_id. rewrite _initialize_done by exact Hi.
  cbn [_registered_servers set_registered]. by rewrite lookup_insert_eq.
Qed.

Lemma update_server_partial_witness :
  let st :=
    run openai_compatible_only (process_with [])
      [Register (registration_of "a" "http://a:8000")] in
  let r :=
    update_server openai_compatible_only st.1 st.2 "a"
      (update_base_url_to "http://a:8001") in
  exists stored : ModelServer,
    _registered_servers st.2 !! "a" = Some stored
    /\ base_url stored = "http://a:8000"
    /\ get_server_by_id openai_compatible_only r.1.2 r.2 "a"
       = (Some {| server_id := "a"; server_type := OPENAI_COMPATIBLE;
                  base_url := "http://a:8001"; api_key_required := false;
                  models := []; server_config := None; status := ACTIVE;
                  tags := []; created_at := 0; updated_at := 1 |},
          r.1.2, r.2).
Proof.
  cbv zeta.
  destruct (update_server_partial openai_compatible_only
              (run openai_compatible_only (process_with [])
                 [Register (registration_of "a" "http://a:8000")]).1
              _
              (run openai_compatible_only (process_with [])
                 [Register (registration_of "a" "http://a:8000")]).2
              _ "a" (update_base_url_to "http://a:8001")
              {| server_id := "a"; server_type := OPENAI_COMPATIBLE;
                 base_url := "http://a:8001"; api_key_required := false;
                 models := []; server_config := None; status := ACTIVE;
                 tags := []; created_at := 0; updated_at := 1 |}
              eq_refl)
    as (stored & Hstored & H).
  exists stored. split; [exact Hstored|]. split.
  - vm_compute in Hstored. by injection Hstored as <-.
  - apply H.
Defined.

(** ** The runtime namespace between reloads *)

Section RuntimeFrozen.

Variable is_ModelType : string -> bool.

Lemma step_keeps_runtime p self c :
  _initialized self = true -> is_reload c = false ->
  _runtime_servers (step is_ModelType (p, self) c).2 = _runtime_servers self
  /\ _initialized (step is_ModelType (p, self) c).2 = true.
Proof.
  intros Hi Hc. destruct c as [request|sid request|sid| |items];
    try discriminate Hc; unfold step.
  - unfold register_server. rewrite _initialize_done by exact Hi.
    repeat case_bool_decide; by split.
  - unfold update_server. rewrite _initialize_done by exact Hi.
    case_bool_decide; [by split|].
    destruct (_registered_servers self !! sid); by split.
  - unfold delete_server. rewrite _initialize_done by exact Hi.
    repeat case_bool_decide; by split.
  - by split.
Qed.

End RuntimeFrozen.

(** Once the service is initialised, the runtime namespace is that of the
    load: no sequence of register, update and delete calls changes it, and
    changes of the environment are not seen, until
    [reload_runtime_servers] is called. *)
Theorem runtime_namespace_fixed_until_reload :
  forall (is_ModelType : string -> bool) (calls : list call) (p : Process)
         (self : ModelService),
    _initialized self = true ->
    forallb (fun c => negb (is_reload c)) calls = true ->
    _runtime_servers (fold_left (step is_ModelType) calls (p, self)).2
    = _runtime_servers self
    /\ _initialized (fold_left (step is_ModelType) calls (p, self)).2 = true.
Proof.
  intros is_ModelType calls.
  induction calls as [|c calls IH]; intros p self Hi Hall; [by split|].
  cbn [forallb] in Hall. apply andb_prop in Hall as [Hc Hall].
  apply negb_true_iff in Hc.
  destruct (step_keeps_runtime is_ModelType p self c Hi Hc) as [Hrt Hi'].
  cbn [fold_left].
  destruct (step is_ModelType (p, self) c) as [p' self'] eqn:E.
  simpl in Hrt, Hi'. rewrite <- Hrt. by apply IH.
Qed.

(** After a first call under an environment that defines [default], the
    environment is emptied: the runtime server stays. *)
Lemma runtime_namespace_fixed_until_reload_witness :
  let st :=
    run openai_compatible_only
      (process_with [("MODEL_SERVER_URL", "http://a:8000")]) [Delete "x"] in
  let calls :=
    [SetEnviron []; Register (registration_of "b" "http://b:9000");
     Update "b" (update_base_url_to "http://b:9001"); Delete "b"] in
  _runtime_servers (fold_left (step openai_compatible_only) calls st).2
  = _runtime_servers st.2
  /\ _initialized (fold_left (step openai_compatible_only) calls st).2 = true.
Proof.
  cbv zeta.
  apply (runtime_namespace_fixed_until_reload openai_compatible_only
           [SetEnviron []; Register (registration_of "b" "http://b:9000");
            Update "b" (update_base_url_to "http://b:9001"); Delete "b"]
           (run openai_compatible_only
              (process_with [("MODEL_SERVER_URL", "http://a:8000")])
              [Delete "x"]).1
           (run openai_compatible_only
              (process_with [("MODEL_SERVER_URL", "http://a:8000")])
              [Delete "x"]).2);
    reflexivity.
Defined.

(** ** Trimming *)

Section Trimming.

Lemma lstrip_head c r s : PyStr.lstrip s = String c r -> PyStr.isspace c = false.
Proof.
  induction s as [|d s IH]; [discriminate|].
  cbn [PyStr.lstrip]. destruct (PyStr.isspace d) eqn:E; [exact IH|].
  by intros [= <- _].
Qed.

Lemma lstrip_fixed c r : PyStr.isspace c = false ->
  PyStr.lstrip (String c r) = String c r.
Proof. intros E. cbn [PyStr.lstrip]. by rewrite E. Qed.

Lemma rstrip_cons c s :
  PyStr.rstrip (String c s)
  = match PyStr.rstrip s with
    | EmptyString => if PyStr.isspace c then EmptyString else String c EmptyString
    | r => String c r
    end.
Proof. reflexivity. Qed.

Lemma rstrip_idem s : PyStr.rstrip (PyStr.rstrip s) = PyStr.rstrip s.
Proof.
  induction s as [|c s IH]; [reflexivity|].
  rewrite rstrip_cons. destruct (PyStr.rstrip s) as [|d r] eqn:E.
  - destruct (PyStr.isspace c) eqn:Ec; [reflexivity|].
    rewrite rstrip_cons. cbn [PyStr.rstrip]. by rewrite Ec.
  - rewrite rstrip_cons, IH. reflexivity.
Qed.

Lemma rstrip_keeps_head c s d r :
  PyStr.rstrip (String c s) = String d r -> d = c.
Proof.
  rewrite rstrip_cons. destruct (PyStr.rstrip s).
  - destruct (PyStr.isspace c); [discriminate | by intros [= <- _]].
  - by intros [= <- _].
Qed.

Lemma strip_idem s : PyStr.strip (PyStr.strip s) = PyStr.strip s.
Proof.
  unfold PyStr.strip.
  destruct (PyStr.lstrip s) as [|c t] eqn:E; [reflexivity|].
  pose proof (lstrip_head _ _ _ E) as Hc.
  destruct (PyStr.rstrip (String c t)) as [|d r] eqn:Er; [reflexivity|].
  pose proof (rstrip_keeps_head _ _ _ _ Er) as ->.
  rewrite lstrip_fixed by exact Hc. rewrite <- Er. apply rstrip_idem.
Qed.

Lemma truthy_true s : PyStr.truthy s = true -> s <> "".
Proof. by destruct s. Qed.

End Trimming.

(** ** Well-formed entries of the loader *)

Section LoadedEntries.

Variable is_ModelType : string -> bool.

Lemma parse_model_names_spec models_str sid :
  parse_model_names models_str sid <> []
  /\ forall n, In n (parse_model_names models_str sid) ->
               n = sid \/ (n <> "" /\ PyStr.strip n = n).
Proof.
  unfold parse_model_names.
  set (pieces :=
         map PyStr.strip
           (List.filter (fun m => PyStr.truthy (PyStr.strip m))
              (PyStr.split "," models_str))).
  assert (forall n, In n pieces -> n <> "" /\ PyStr.strip n = n) as Hpieces.
  { intros n Hin. apply in_map_iff in Hin as (m & <- & Hm).
    apply filter_In in Hm as [_ Hm].
    split; [by apply truthy_true | apply strip_idem]. }
  destruct (PyStr.truthy models_str).
  - destruct pieces as [|n ns] eqn:E.
    + split; [done|]. intros n [<-|[]]. by left.
    + split; [done|]. intros n' Hin. right. by apply Hpieces.
  - split; [done|]. intros n [<-|[]]. by left.
Qed.

Lemma ModelType_of_default model_type_str :
  let ty :=
    match ModelType_of is_ModelType (PyStr.lower model_type_str) with
    | Some ty => ty
    | None => OPENAI_COMPATIBLE
    end in
  is_ModelType ty = true \/ ty = OPENAI_COMPATIBLE.
Proof.
  unfold ModelType_of.
  destruct (is_ModelType (PyStr.lower model_type_str)) eqn:E; [by left | by right].
Qed.

Lemma models_of_names_loaded models_str sid m :
  In m (map runtime_model (parse_model_names models_str sid)) ->
  model_name m = sid
  \/ (model_name m <> "" /\ PyStr.strip (model_name m) = model_name m).
Proof.
  intros Hin. apply in_map_iff in Hin as (n & <- & Hn).
  exact (proj2 (parse_model_names_spec models_str sid) n Hn).
Qed.

Lemma models_of_names_nonempty models_str sid :
  map runtime_model (parse_model_names models_str sid) <> [].
Proof.
  destruct (parse_model_names_spec models_str sid) as [Hne _].
  by destruct (parse_model_names models_str sid).
Qed.

Lemma entries_loaded_insert m sid server :
  loaded_entry is_ModelType sid server -> entries_loaded is_ModelType m ->
  entries_loaded is_ModelType (<[sid := server]> m).
Proof.
  intros Hs Hm k s'. destruct (decide (sid = k)) as [->|Hne].
  - rewrite lookup_insert_eq. by intros [= <-].
  - rewrite lookup_insert_ne by done. apply Hm.
Qed.

Lemma load_simple_loaded st :
  entries_loaded is_ModelType st.2 ->
  entries_loaded is_ModelType (load_simple is_ModelType st).2.
Proof.
  destruct st as [p m]. unfold load_simple. simpl. intros H.
  destruct (getenv p "MODEL_SERVER_URL") as [u|]; [|exact H].
  destruct (PyStr.truthy u); [|exact H].
  destruct (PyStr.truthy (PyStr.strip u)) eqn:Hu; [|exact H].
  pose proof (ModelType_of_default
                (getenv_or p "MODEL_SERVER_TYPE" "openai-compatible")) as Hty.
  cbv zeta in Hty.
  destruct (ModelType_of is_ModelType _); simpl;
    (apply entries_loaded_insert; [|exact H]);
    (split; [reflexivity|]; split; [by apply truthy_true|];
     split; [apply strip_idem|]; split; [apply models_of_names_nonempty|];
     split; [intros m'; apply models_of_names_loaded|];
     split; [exact Hty | reflexivity]).
Qed.

Lemma namespaced_step_loaded st item :
  entries_loaded is_ModelType st.2 ->
  entries_loaded is_ModelType (namespaced_step is_ModelType st item).2.
Proof.
  destruct st as [p m], item as [env_var env_value].
  unfold namespaced_step. simpl. intros H.
  destruct (_ && _); [|exact H].
  destruct (PyStr.re_match_URL _ _) as [g|]; [|exact H].
  destruct (PyStr.truthy (PyStr.strip env_value)) eqn:Hu; [|exact H].
  cbn [negb].
  pose proof (ModelType_of_default
                (getenv_or p ("EVAL_HUB_MODEL_SERVER_" +:+ g +:+ "_TYPE")
                   "openai-compatible")) as Hty.
  cbv zeta in Hty.
  destruct (ModelType_of is_ModelType _); simpl;
    (apply entries_loaded_insert; [|exact H]);
    (split; [reflexivity|]; split; [by apply truthy_true|];
     split; [apply strip_idem|]; split; [apply models_of_names_nonempty|];
     split; [intros m'; apply models_of_names_loaded|];
     split; [exact Hty | reflexivity]).
Qed.

Lemma legacy_step_loaded st item :
  entries_loaded is_ModelType st.2 ->
  entries_loaded is_ModelType (legacy_step is_ModelType st item).2.
Proof.
  destruct st as [p m], item as [env_var env_value].
  unfold legacy_step. simpl. intros H.
  destruct (_ && _); [|exact H].
  destruct (PyStr.re_match_URL _ _) as [g|]; [|exact H].
  destruct (bool_decide _); [exact H|].
  destruct (PyStr.truthy (PyStr.strip env_value)) eqn:Hu; [|exact H].
  cbn [negb]. simpl. apply entries_loaded_insert; [|exact H].
  split; [reflexivity|]. split; [by apply truthy_true|].
  split; [apply strip_idem|]. split; [done|].
  split; [intros m' [<-|[]]; by left|].
  split; [apply ModelType_of_default | reflexivity].
Qed.

Lemma load_servers_loaded p :
  entries_loaded is_ModelType (load_servers is_ModelType p).2.
Proof.
  unfold load_servers.
  apply (fold_left_preserves
           (fun st : LoaderState => entries_loaded is_ModelType st.2));
    [intros; by apply legacy_step_loaded|].
  apply (fold_left_preserves
           (fun st : LoaderState => entries_loaded is_ModelType st.2));
    [intros; by apply namespaced_step_loaded|].
  apply load_simple_loaded. intros sid server H. simpl in H.
  by rewrite lookup_empty in H.
Qed.

End LoadedEntries.

(** Every server the loader returns is stored under its own identifier, and
    its base URL is not empty and carries no surrounding whitespace. *)
Theorem loaded_server_identifier_and_url :
  forall (is_ModelType : string -> bool) (p : Process) (sid : string)
         (server : ModelServer),
    (load_servers is_ModelType p).2 !! sid = Some server ->
    server_id server = sid
    /\ base_url server <> ""
    /\ PyStr.strip (base_url server) = base_url server.
Proof.
  intros is_ModelType p sid server H.
  destruct (load_servers_loaded is_ModelType p sid server H)
    as (Hid & Hurl & Hstrip & _).
  auto.
Qed.

Lemma loaded_server_identifier_and_url_witness :
  let p :=
    process_with [("EVAL_HUB_MODEL_SERVER_VLLM_URL", "  http://v:8000  ");
                  ("EVAL_HUB_MODEL_SERVER_VLLM_ID", "Prod")] in
  exists server,
    (load_servers openai_compatible_only p).2 !! "Prod" = Some server
    /\ base_url server = "http://v:8000"
    /\ server_id server = "Prod"
    /\ base_url server <> ""
    /\ PyStr.strip (base_url server) = base_url server.
Proof.
  cbv zeta. eexists. split; [vm_compute; reflexivity|].
  split; [reflexivity|].
  apply (loaded_server_identifier_and_url openai_compatible_only
           (process_with [("EVAL_HUB_MODEL_SERVER_VLLM_URL", "  http://v:8000  ");
                          ("EVAL_HUB_MODEL_SERVER_VLLM_ID", "Prod")])
           "Prod").
  reflexivity.
Defined.

(** Every server the loader returns has at least one model, and each of its
    models is named after the server or carries a non-empty name without
    surrounding whitespace: blank pieces of a MODELS list give no model. *)
Theorem loaded_server_models :
  forall (is_ModelType : string -> bool) (p : Process) (sid : string)
         (server : ModelServer),
    (load_servers is_ModelType p).2 !! sid = Some server ->
    models server <> []
    /\ forall m, In m (models server) ->
                 model_name m = sid
                 \/ (model_name m <> ""
                     /\ PyStr.strip (model_name m) = model_name m).
Proof.
  intros is_ModelType p sid server H.
  destruct (load_servers_loaded is_ModelType p sid server H)
    as (_ & _ & _ & Hne & Hnames & _).
  auto.
Qed.

Lemma loaded_server_models_witness :
  let p :=
    process_with [("MODEL_SERVER_URL", "http://a:8000");
                  ("MODEL_SERVER_MODELS", " m1 ,, m2 , ")] in
  exists server,
    (load_servers openai_compatible_only p).2 !! "default" = Some server
    /\ map model_name (models server) = ["m1"; "m2"]
    /\ models server <> []
    /\ forall m, In m (models server) ->
                 model_name m = "default"
                 \/ (model_name m <> ""
                     /\ PyStr.strip (model_name m) = model_name m).
Proof.
  cbv zeta. eexists. split; [vm_compute; reflexivity|].
  split; [reflexivity|].
  apply (loaded_server_models openai_compatible_only
           (process_with [("MODEL_SERVER_URL", "http://a:8000");
                          ("MODEL_SERVER_MODELS", " m1 ,, m2 , ")])
           "default").
  reflexivity.
Defined.



(** ** Lookups on every run *)

Section Keyed.

Variable is_ModelType : string -> bool.

Lemma load_servers_keyed p :
  keyed_by_server_id (load_servers is_ModelType p).2.
Proof.
  intros sid server H.
  by destruct (load_servers_loaded is_ModelType p sid server H).
Qed.

Lemma keyed_insert m sid server :
  server_id server = sid -> keyed_by_server_id m ->
  keyed_by_server_id (<[sid := server]> m).
Proof.
  intros Hs Hm k s'. destruct (decide (sid = k)) as [->|Hne].
  - rewrite lookup_insert_eq. by intros [= <-].
  - rewrite lookup_insert_ne by done. apply Hm.
Qed.

Lemma keyed_delete m sid :
  keyed_by_server_id m -> keyed_by_server_id (delete sid m).
Proof.
  intros Hm k s'. destruct (decide (sid = k)) as [->|Hne].
  - by rewrite lookup_delete_eq.
  - rewrite lookup_delete_ne by done. apply Hm.
Qed.

Lemma _initialize_keyed p self :
  both_keyed self -> both_keyed (_initialize is_ModelType p self).2.
Proof.
  intros [Hr Ht]. unfold _initialize.
  destruct (_initialized self); [by split|].
  rewrite _load_runtime_servers_spec. split; [exact Hr|].
  apply load_servers_keyed.
Qed.

Lemma step_keyed st c :
  both_keyed st.2 -> both_keyed (step is_ModelType st c).2.
Proof.
  destruct st as [p self]. intros Hk. simpl in Hk.
  destruct c as [request|sid request|sid| |items]; unfold step.
  - unfold register_server.
    apply (_initialize_keyed p) in Hk.
    destruct (_initialize is_ModelType p self) as [p0 s0].
    repeat case_bool_decide; try exact Hk.
    destruct Hk as [Hr Ht]. split; [|exact Ht].
    by apply keyed_insert.
  - unfold update_server.
    apply (_initialize_keyed p) in Hk.
    destruct (_initialize is_ModelType p self) as [p0 s0].
    case_bool_decide; [exact Hk|].
    destruct (_registered_servers s0 !! sid) as [stored|] eqn:E; [|exact Hk].
    destruct Hk as [Hr Ht]. split; [|exact Ht].
    apply keyed_insert; [|exact Hr]. exact (Hr sid stored E).
  - unfold delete_server.
    apply (_initialize_keyed p) in Hk.
    destruct (_initialize is_ModelType p self) as [p0 s0].
    repeat case_bool_decide; try exact Hk.
    destruct Hk as [Hr Ht]. split; [|exact Ht].
    by apply keyed_delete.
  - unfold reload_runtime_servers. rewrite _load_runtime_servers_spec.
    destruct Hk as [Hr _]. split; [exact Hr | apply load_servers_keyed].
  - exact Hk.
Qed.

Lemma run_keyed p calls : both_keyed (run is_ModelType p calls).2.
Proof.
  unfold run.
  apply (fold_left_preserves
           (fun st : Process * ModelService => both_keyed st.2));
    [intros; by apply step_keyed|].
  split; intros sid server H; simpl in H; by rewrite lookup_empty in H.
Qed.

End Keyed.

(** After any run of register, update, delete and reload calls, with any
    changes of the environment in between, [get_server_by_id] returns either
    [None] or a descriptor that carries the identifier asked for. *)
Theorem lookup_returns_asked_identifier :
  forall (is_ModelType : string -> bool) (p : Process) (calls : list call)
         (sid : string) (server : ModelServer),
    (get_server_by_id is_ModelType (run is_ModelType p calls).1
       (run is_ModelType p calls).2 sid).1.1 = Some server ->
    server_id server = sid.
Proof.
  intros is_ModelType p calls sid server H.
  pose proof (run_keyed is_ModelType p calls) as Hk.
  apply (_initialize_keyed is_ModelType (run is_ModelType p calls).1) in Hk.
  unfold get_server_by_id in H.
  destruct (_initialize is_ModelType _ _) as [p0 s0].
  destruct Hk as [Hr Ht]. simpl in Hr, Ht.
  destruct (_registered_servers s0 !! sid) as [stored|] eqn:E; simpl in H.
  - injection H as <-. exact (Hr sid stored E).
  - exact (Ht sid server H).
Qed.

Lemma lookup_returns_asked_identifier_witness :
  let calls :=
    [Register (registration_of "a" "http://a:8000");
     SetEnviron [("EVAL_HUB_MODEL_SERVER_B_URL", "http://b:9000")];
     ReloadRuntime] in
  exists server,
    (get_server_by_id openai_compatible_only
       (run openai_compatible_only (process_with []) calls).1
       (run openai_compatible_only (process_with []) calls).2 "b").1.1
    = Some server
    /\ server_id server = "b".
Proof.
  cbv zeta. eexists. split; [vm_compute; reflexivity|].
  apply (lookup_returns_asked_identifier openai_compatible_only
           (process_with [])
           [Register (registration_of "a" "http://a:8000");
            SetEnviron [("EVAL_HUB_MODEL_SERVER_B_URL", "http://b:9000")];
            ReloadRuntime]
           "b").
  reflexivity.
Defined.

(** ** What the loops of the loader keep *)

Section LoaderLoops.

Variable is_ModelType : string -> bool.

Lemma load_simple_environ st :
  environ (load_simple is_ModelType st).1 = environ st.1.
Proof.
  destruct st as [p m]. unfold load_simple. simpl.
  destruct (getenv p "MODEL_SERVER_URL") as [u|]; [|done].
  destruct (PyStr.truthy u); [|done].
  destruct (PyStr.truthy (PyStr.strip u)); [|done].
  destruct (ModelType_of is_ModelType _); reflexivity.
Qed.

Lemma namespaced_step_environ st item :
  environ (namespaced_step is_ModelType st item).1 = environ st.1.
Proof.
  destruct st as [p m], item as [env_var env_value].
  unfold namespaced_step. simpl. namespaced_guards ltac:(done).
  destruct (ModelType_of is_ModelType _); reflexivity.
Qed.

Lemma legacy_step_environ st item :
  environ (legacy_step is_ModelType st item).1 = environ st.1.
Proof.
  destruct st as [p m], item as [env_var env_value].
  unfold legacy_step. simpl. legacy_guards ltac:(done). reflexivity.
Qed.

Lemma fold_left_environ
  (f : LoaderState -> string * string -> LoaderState) items :
  (forall st item, environ (f st item).1 = environ st.1) ->
  forall st, environ (fold_left f items st).1 = environ st.1.
Proof.
  intros Hf. induction items as [|i items IH]; intros st; simpl; [done|].
  rewrite IH. apply Hf.
Qed.

Lemma lookup_insert_is_Some_keep (m : gmap string ModelServer) sid server k :
  is_Some (m !! k) -> is_Some (<[sid := server]> m !! k).
Proof.
  intros H. destruct (decide (sid = k)) as [->|Hne].
  - rewrite lookup_insert_eq. by eexists.
  - by rewrite lookup_insert_ne.
Qed.

Lemma load_simple_keeps_ids st k :
  is_Some (st.2 !! k) -> is_Some ((load_simple is_ModelType st).2 !! k).
Proof.
  destruct st as [p m]. unfold load_simple. simpl. intros H.
  destruct (getenv p "MODEL_SERVER_URL") as [u|]; [|exact H].
  destruct (PyStr.truthy u); [|exact H].
  destruct (PyStr.truthy (PyStr.strip u)); [|exact H].
  destruct (ModelType_of is_ModelType _); simpl;
    by apply lookup_insert_is_Some_keep.
Qed.

Lemma namespaced_step_keeps_ids st item k :
  is_Some (st.2 !! k) ->
  is_Some ((namespaced_step is_ModelType st item).2 !! k).
Proof.
  destruct st as [p m], item as [env_var env_value].
  unfold namespaced_step. simpl. intros H. namespaced_guards ltac:(exact H).
  destruct (ModelType_of is_ModelType _); simpl;
    by apply lookup_insert_is_Some_keep.
Qed.

Lemma legacy_step_keeps_ids st item k :
  is_Some (st.2 !! k) ->
  is_Some ((legacy_step is_ModelType st item).2 !! k).
Proof.
  destruct st as [p m], item as [env_var env_value].
  unfold legacy_step. simpl. intros H. legacy_guards ltac:(exact H).
  simpl. by apply lookup_insert_is_Some_keep.
Qed.

Lemma namespaced_loop_keeps_ids items st k :
  is_Some (st.2 !! k) ->
  is_Some ((fold_left (namespaced_step is_ModelType) items st).2 !! k).
Proof.
  apply (fold_left_preserves (fun st : LoaderState => is_Some (st.2 !! k))).
  intros. by apply namespaced_step_keeps_ids.
Qed.

Lemma legacy_loop_keeps_ids items st k :
  is_Some (st.2 !! k) ->
  is_Some ((fold_left (legacy_step is_ModelType) items st).2 !! k).
Proof.
  apply (fold_left_preserves (fun st : LoaderState => is_Some (st.2 !! k))).
  intros. by apply legacy_step_keeps_ids.
Qed.

Lemma strip_nonempty_truthy u :
  PyStr.strip u <> "" -> PyStr.truthy u = true /\ PyStr.truthy (PyStr.strip u) = true.
Proof.
  intros H. split.
  - destruct u; [by destruct H | reflexivity].
  - by apply truthy_nonempty.
Qed.

End LoaderLoops.

(** A MODEL_SERVER_URL that is not blank always gives a runtime server: the
    dictionary the loader returns has an entry under MODEL_SERVER_ID, or
    under [default] when that variable is not set, whatever else the
    environment holds. *)
Theorem simple_pattern_identifier_loaded :
  forall (is_ModelType : string -> bool) (p : Process) (url : string),
    getenv p "MODEL_SERVER_URL" = Some url ->
    PyStr.strip url <> "" ->
    is_Some ((load_servers is_ModelType p).2
               !! getenv_or p "MODEL_SERVER_ID" "default").
Proof.
  intros is_ModelType p url Hget Hurl.
  apply strip_nonempty_truthy in Hurl as [Hu Hs].
  unfold load_servers.
  apply legacy_loop_keeps_ids, namespaced_loop_keeps_ids.
  unfold load_simple. rewrite Hget, Hu, Hs.
  destruct (ModelType_of is_ModelType _); simpl;
    rewrite lookup_insert_eq; by eexists.
Qed.

Lemma simple_pattern_identifier_loaded_witness :
  is_Some
    ((load_servers openai_compatible_only
        (process_with [("MODEL_SERVER_URL", " http://a:8000");
                       ("MODEL_SERVER_ID", "main");
                       ("EVAL_HUB_MODEL_SERVER_MAIN_URL", "http://b:9000")])).2
       !! "main").
Proof.
  apply (simple_pattern_identifier_loaded openai_compatible_only
           (process_with [("MODEL_SERVER_URL", " http://a:8000");
                          ("MODEL_SERVER_ID", "main");
                          ("EVAL_HUB_MODEL_SERVER_MAIN_URL", "http://b:9000")])
           " http://a:8000").
  - reflexivity.
  - discriminate.
Defined.

(** Every variable EVAL_HUB_MODEL_SERVER_<SERVER_ID>_URL of the environment
    whose <SERVER_ID> is not empty and has no line break, and whose value is
    not blank, gives a runtime server: the dictionary the loader returns has
    an entry under the companion _ID variable, or under the lower-cased
    <SERVER_ID> when that variable is not set. *)
Theorem namespaced_variable_identifier_loaded :
  forall (is_ModelType : string -> bool) (p : Process)
         (group1 env_value : string),
    In ("EVAL_HUB_MODEL_SERVER_" +:+ group1 +:+ "_URL", env_value) (environ p) ->
    group1 <> "" ->
    has_newline group1 = false ->
    PyStr.strip env_value <> "" ->
    is_Some ((load_servers is_ModelType p).2
               !! getenv_or p ("EVAL_HUB_MODEL_SERVER_" +:+ group1 +:+ "_ID")
                    (PyStr.lower group1)).
Proof.
  intros is_ModelType p group1 env_value Hin Hg Hnl Hurl.
  apply in_split in Hin as (l1 & l2 & Hsplit).
  unfold load_servers. apply legacy_loop_keeps_ids.
  rewrite Hsplit at 1. rewrite fold_left_app. cbn [fold_left].
  apply namespaced_loop_keeps_ids.
  set (st := fold_left (namespaced_step is_ModelType) l1
               (load_simple is_ModelType (p, ∅))).
  assert (environ st.1 = environ p) as Henv.
  { subst st. rewrite fold_left_environ by apply namespaced_step_environ.
    apply load_simple_environ. }
  destruct st as [q m]. simpl in Henv.
  unfold namespaced_step, PyStr.startswith.
  rewrite prefix_append, endswith_append_after.
  rewrite re_match_URL_exact by assumption.
  rewrite truthy_nonempty by assumption. cbn [andb negb].
  unfold getenv_or, getenv. rewrite Henv.
  destruct (ModelType_of is_ModelType _); simpl;
    rewrite lookup_insert_eq; by eexists.
Qed.

Lemma namespaced_variable_identifier_loaded_witness :
  is_Some
    ((load_servers openai_compatible_only
        (process_with [("MODEL_SERVER_URL", "http://a:8000");
                       ("EVAL_HUB_MODEL_SERVER_My_Box_URL", "http://b:9000");
                       ("EVAL_HUB_MODEL_X_URL", "http://c:1")])).2
       !! "my_box").
Proof.
  apply (namespaced_variable_identifier_loaded openai_compatible_only
           (process_with [("MODEL_SERVER_URL", "http://a:8000");
                          ("EVAL_HUB_MODEL_SERVER_My_Box_URL", "http://b:9000");
                          ("EVAL_HUB_MODEL_X_URL", "http://c:1")])
           "My_Box" "http://b:9000").
  - right. left. reflexivity.
  - discriminate.
  - reflexivity.
  - discriminate.
Defined.

(** ** Environments that define no server *)

Section NoServer.

Variable is_ModelType : string -> bool.

Lemma prefix_trans (a b c : string) :
  String.prefix a b = true -> String.prefix b c = true ->
  String.prefix a c = true.
Proof.
  revert b c. induction a as [|x a IH]; intros b c Hab Hbc.
  - by destruct c.
  - destruct b as [|y b]; [discriminate Hab|].
    destruct c as [|z c]; [discriminate Hbc|].
    simpl in *.
    destruct (ascii_dec x y) as [->|]; [|discriminate Hab].
    destruct (ascii_dec y z) as [->|]; [|discriminate Hbc].
    by apply (IH b c).
Qed.

Lemma not_model_prefix_not_server_prefix (env_var : string) :
  PyStr.startswith env_var "EVAL_HUB_MODEL_" = false ->
  PyStr.startswith env_var "EVAL_HUB_MODEL_SERVER_" = false.
Proof.
  unfold PyStr.startswith. intros H.
  destruct (String.prefix "EVAL_HUB_MODEL_SERVER_" env_var) eqn:E; [|done].
  rewrite <- H. symmetry.
  apply (prefix_trans _ "EVAL_HUB_MODEL_SERVER_"); [reflexivity | exact E].
Qed.

Lemma loops_skip_other_names items st :
  (forall env_var env_value,
      In (env_var, env_value) items ->
      PyStr.startswith env_var "EVAL_HUB_MODEL_" = false) ->
  fold_left (namespaced_step is_ModelType) items st = st
  /\ fold_left (legacy_step is_ModelType) items st = st.
Proof.
  induction items as [|[env_var env_value] items IH]; intros H; [by split|].
  assert (PyStr.startswith env_var "EVAL_HUB_MODEL_" = false) as Hm
    by (apply (H env_var env_value); by left).
  pose proof (not_model_prefix_not_server_prefix env_var Hm) as Hs.
  destruct IH as [IHn IHl].
  { intros v w Hin. apply (H v w). by right. }
  cbn [fold_left]. destruct st as [p m].
  unfold namespaced_step at 2, legacy_step at 2. rewrite Hm, Hs.
  cbn [andb]. by split.
Qed.

End NoServer.

(** With MODEL_SERVER_URL unset and no variable whose name starts with
    EVAL_HUB_MODEL_, the loader returns the empty dictionary, reads no
    clock and writes no log record; [reload_runtime_servers] then empties
    the runtime namespace. *)
Theorem environment_without_servers :
  forall (is_ModelType : string -> bool) (p : Process) (self : ModelService),
    getenv p "MODEL_SERVER_URL" = None ->
    (forall env_var env_value,
        In (env_var, env_value) (environ p) ->
        PyStr.startswith env_var "EVAL_HUB_MODEL_" = false) ->
    load_servers is_ModelType p = (p, ∅)
    /\ _runtime_servers (reload_runtime_servers is_ModelType p self).2 = ∅.
Proof.
  intros is_ModelType p self Hget Hnames.
  assert (load_servers is_ModelType p = (p, ∅)) as Hload.
  { unfold load_servers.
    destruct (loops_skip_other_names is_ModelType (environ p)
                (load_simple is_ModelType (p, ∅)) Hnames) as [-> ->].
    unfold load_simple. by rewrite Hget. }
  split; [exact Hload|].
  unfold reload_runtime_servers. rewrite _load_runtime_servers_spec.
  by rewrite Hload.
Qed.

Lemma environment_without_servers_witness :
  let p := process_with [("PATH", "/usr/bin"); ("MODEL_SERVER_ID", "x");
                         ("EVAL_HUB_URL", "http://e:1")] in
  load_servers openai_compatible_only p = (p, ∅)
  /\ _runtime_servers
       (reload_runtime_servers openai_compatible_only p new_service).2 = ∅.
Proof.
  cbv zeta.
  apply (environment_without_servers openai_compatible_only
           (process_with [("PATH", "/usr/bin"); ("MODEL_SERVER_ID", "x");
                          ("EVAL_HUB_URL", "http://e:1")]) new_service).
  - reflexivity.
  - intros env_var env_value [H|[H|[H|[]]]];
      injection H as <- <-; reflexivity.
Defined.

(** ** The legacy loop without _ID variables *)

Section LegacyWithoutOverride.

Variable is_ModelType : string -> bool.

Lemma legacy_step_keeps_entry st env_var env_value k server :
  (forall group1,
      PyStr.startswith env_var "EVAL_HUB_MODEL_" = true ->
      PyStr.endswith env_var "_URL" = true ->
      PyStr.contains "SERVER" env_var = false ->
      PyStr.re_match_URL "EVAL_HUB_MODEL_" env_var = Some group1 ->
      getenv st.1 ("EVAL_HUB_MODEL_" +:+ group1 +:+ "_ID") = None) ->
  st.2 !! k = Some server ->
  (legacy_step is_ModelType st (env_var, env_value)).2 !! k = Some server.
Proof.
  destruct st as [p m]. simpl. intros Hid Hk. unfold legacy_step.
  destruct (_ && _) eqn:Hguard; [|exact Hk].
  apply andb_true_iff in Hguard as [Hguard Hserver].
  apply andb_true_iff in Hguard as [Hstart Hend].
  apply negb_true_iff in Hserver.
  destruct (PyStr.re_match_URL _ _) as [g|]; [|exact Hk].
  case_bool_decide as Hin; [exact Hk|].
  destruct (negb _); [exact Hk|].
  unfold getenv_or. rewrite (Hid g Hstart Hend Hserver eq_refl). simpl.
  rewrite lookup_insert_ne; [exact Hk|].
  intros <-. apply Hin. by eexists.
Qed.

Lemma legacy_loop_keeps_entry items st k server :
  (forall env_var env_value group1,
      In (env_var, env_value) items ->
      PyStr.startswith env_var "EVAL_HUB_MODEL_" = true ->
      PyStr.endswith env_var "_URL" = true ->
      PyStr.contains "SERVER" env_var = false ->
      PyStr.re_match_URL "EVAL_HUB_MODEL_" env_var = Some group1 ->
      lookup_env (environ st.1) ("EVAL_HUB_MODEL_" +:+ group1 +:+ "_ID") = None) ->
  st.2 !! k = Some server ->
  (fold_left (legacy_step is_ModelType) items st).2 !! k = Some server.
Proof.
  revert st. induction items as [|[env_var env_value] items IH];
    intros st Hid Hk; [exact Hk|].
  cbn [fold_left]. apply IH.
  - intros v w g Hin H1 H2 H3 Hm. rewrite legacy_step_environ.
    apply (Hid v w g); [by right | exact H1 | exact H2 | exact H3 | exact Hm].
  - apply legacy_step_keeps_entry; [|exact Hk].
    intros g H1 H2 H3 Hm.
    apply (Hid env_var env_value g);
      [by left | exact H1 | exact H2 | exact H3 | exact Hm].
Qed.

End LegacyWithoutOverride.

(** When no legacy variable of the environment has a companion _ID variable,
    the legacy loop replaces nothing: every entry that the simple and the
    namespaced pattern have produced is, unchanged, in the dictionary the
    loader returns.  A legacy variable is a name that passes the guard of
    the legacy loop: it starts with EVAL_HUB_MODEL_, ends with _URL and does
    not contain SERVER; the variables of the namespaced pattern may have
    their _ID companions. *)
Theorem legacy_without_override_keeps_entries :
  forall (is_ModelType : string -> bool) (p : Process) (sid : string)
         (server : ModelServer),
    (forall env_var env_value group1,
        In (env_var, env_value) (environ p) ->
        PyStr.startswith env_var "EVAL_HUB_MODEL_" = true ->
        PyStr.endswith env_var "_URL" = true ->
        PyStr.contains "SERVER" env_var = false ->
        PyStr.re_match_URL "EVAL_HUB_MODEL_" env_var = Some group1 ->
        getenv p ("EVAL_HUB_MODEL_" +:+ group1 +:+ "_ID") = None) ->
    (fold_left (namespaced_step is_ModelType) (environ p)
       (load_simple is_ModelType (p, ∅))).2 !! sid = Some server ->
    (load_servers is_ModelType p).2 !! sid = Some server.
Proof.
  intros is_ModelType p sid server Hid Hk.
  unfold load_servers. apply legacy_loop_keeps_entry; [|exact Hk].
  intros v w g Hin H1 H2 H3 Hm.
  rewrite fold_left_environ by apply namespaced_step_environ.
  rewrite load_simple_environ. exact (Hid v w g Hin H1 H2 H3 Hm).
Qed.

(** An environment with the simple pattern, a namespaced variable that has
    an _ID companion, and two legacy variables without one: the entry of the
    namespaced variable, stored under the identifier its _ID variable gives,
    is in the dictionary of the loader; the first legacy variable is skipped
    and the second adds the server [y]. *)
Lemma legacy_without_override_keeps_entries_witness :
  let p :=
    process_with [("MODEL_SERVER_URL", "http://a:8000");
                  ("EVAL_HUB_MODEL_SERVER_A_URL", "http://b:9000");
                  ("EVAL_HUB_MODEL_SERVER_A_ID", "x");
                  ("EVAL_HUB_MODEL_DEFAULT_URL", "http://d:1");
                  ("EVAL_HUB_MODEL_Y_URL", "http://y:2")] in
  exists server,
    (load_servers openai_compatible_only p).2 !! "x" = Some server
    /\ base_url server = "http://b:9000".
Proof.
  cbv zeta. eexists. split; [|shelve].
  apply (legacy_without_override_keeps_entries openai_compatible_only
           (process_with [("MODEL_SERVER_URL", "http://a:8000");
                          ("EVAL_HUB_MODEL_SERVER_A_URL", "http://b:9000");
                          ("EVAL_HUB_MODEL_SERVER_A_ID", "x");
                          ("EVAL_HUB_MODEL_DEFAULT_URL", "http://d:1");
                          ("EVAL_HUB_MODEL_Y_URL", "http://y:2")])
           "x"
           {| server_id := "x"; server_type := OPENAI_COMPATIBLE;
              base_url := "http://b:9000"; api_key_required := true;
              models := [runtime_model "x"]; server_config := None;
              status := ACTIVE; tags := ["runtime"];
              created_at := 2; updated_at := 3 |}).
  - intros env_var env_value group1 [H|[H|[H|[H|[H|[]]]]]] H1 H2 H3 Hm;
      injection H as <- <-; vm_compute in H1, H2, H3, Hm;
      try discriminate H1; try discriminate H2; try discriminate H3;
      try discriminate Hm; injection Hm as <-; reflexivity.
  - reflexivity.
  Unshelve. reflexivity.
Defined.

(** ** Models of a server *)

Section FindModel.

Lemma find_first {A} (f : A -> bool) (l : list A) (x : A) :
  List.find f l = Some x ->
  f x = true
  /\ exists before after,
       l = before ++ x :: after /\ forall y, In y before -> f y = false.
Proof.
  induction l as [|a l IH]; [discriminate|].
  cbn [List.find]. destruct (f a) eqn:E.
  - intros [= <-]. split; [exact E|]. exists [], l. split; [reflexivity|].
    intros y [].
  - intros H. destruct (IH H) as (Hx & before & after & -> & Hb).
    split; [exact Hx|]. exists (a :: before), after. split; [reflexivity|].
    intros y [<-|Hin]; [exact E | by apply Hb].
Qed.

Lemma get_server_by_id_initialized (is_ModelType : string -> bool) p self sid :
  get_server_by_id is_ModelType (_initialize is_ModelType p self).1
    (_initialize is_ModelType p self).2 sid
  = get_server_by_id is_ModelType p self sid.
Proof.
  unfold get_server_by_id. rewrite _initialize_twice.
  by destruct (_initialize is_ModelType p self).
Qed.

End FindModel.

(** [get_model_on_server] leaves process and service as [get_server_by_id]
    does.  When it returns a pair, the server is the one [get_server_by_id]
    returns and the model is the first model of that server with the name
    asked for; it returns [None] only when the server is unknown or none of
    its models has that name. *)
Theorem get_model_on_server_first_match :
  forall (is_ModelType : string -> bool) (p : Process) (self : ModelService)
         (sid name : string),
    let r := get_model_on_server is_ModelType p self sid name in
    let g := get_server_by_id is_ModelType p self sid in
    (r.1.2, r.2) = (g.1.2, g.2)
    /\ (forall server model,
           r.1.1 = Some (server, model) ->
           g.1.1 = Some server
           /\ model_name model = name
           /\ exists before after,
                models server = before ++ model :: after
                /\ forall m, In m before -> model_name m <> name)
    /\ (r.1.1 = None ->
        g.1.1 = None
        \/ exists server,
             g.1.1 = Some server
             /\ forall m, In m (models server) -> model_name m <> name).
Proof.
  intros is_ModelType p self sid name r g. subst r g.
  unfold get_model_on_server.
  pose proof (get_server_by_id_initialized is_ModelType p self sid) as Hg.
  destruct (_initialize is_ModelType p self) as [p0 s0]. simpl in Hg.
  rewrite Hg.
  destruct (get_server_by_id is_ModelType p self sid) as [[found p1] s1].
  destruct found as [server|]; simpl.
  - destruct (List.find _ (models server)) as [model|] eqn:E.
    + split; [reflexivity|]. split; [|discriminate].
      intros server' model' [= <- <-].
      apply find_first in E as (Hname & before & after & Hsplit & Hbefore).
      split; [reflexivity|]. split; [by apply String.eqb_eq|].
      exists before, after. split; [exact Hsplit|].
      intros m Hin. apply String.eqb_neq. by apply Hbefore.
    + split; [reflexivity|]. split; [discriminate|].
      intros _. right. exists server. split; [reflexivity|].
      intros m Hin. apply String.eqb_neq.
      exact (find_none _ _ E m Hin).
  - split; [reflexivity|]. split; [discriminate|]. intros _. by left.
Qed.

(** ** Listing the servers *)

Section ListingFacts.

Variable is_ModelType : string -> bool.

Lemma values_arrangement (values : gmap string ModelServer -> list ModelServer)
  (m : gmap string ModelServer) :
  Permutation (values m) (values_in_key_order m) ->
  length (values m) = size m
  /\ forall server, In server (values m) <-> exists sid, m !! sid = Some server.
Proof.
  intros Hperm. unfold values_in_key_order in Hperm. split.
  - rewrite (Permutation_length Hperm), length_fmap. apply length_map_to_list.
  - intros server. rewrite <- list_elem_of_In, Hperm, list_elem_of_fmap. split.
    + intros ([sid s'] & -> & Hin). exists sid.
      by apply elem_of_map_to_list in Hin.
    + intros (sid & Hsid). exists (sid, server). split; [reflexivity|].
      by apply elem_of_map_to_list.
Qed.

End ListingFacts.

(** [get_all_servers], in whatever order the two namespaces are traversed:
    the total is the length of the list of summaries; every runtime server is
    summarised in the list and in the runtime part, with or without inactive
    servers; a registered server is summarised when the flag is set or the
    server is active; with the flag unset, every summary that is not active
    is that of a runtime server; with the flag set the total is the number of
    registered plus the number of runtime servers.  The service is changed by
    the lazy initialisation only. *)
Theorem get_all_servers_listing :
  forall (is_ModelType : string -> bool)
         (registered_values runtime_values
            : gmap string ModelServer -> list ModelServer)
         (p : Process) (self : ModelService) (include_inactive : bool),
    (forall m, Permutation (registered_values m) (values_in_key_order m)) ->
    (forall m, Permutation (runtime_values m) (values_in_key_order m)) ->
    let r :=
      get_all_servers is_ModelType registered_values runtime_values p self
        include_inactive in
    let s0 := (_initialize is_ModelType p self).2 in
    (r.1.2, r.2) = _initialize is_ModelType p self
    /\ total_servers r.1.1 = length (servers r.1.1)
    /\ length (listed_runtime_servers r.1.1) = size (_runtime_servers s0)
    /\ (forall sid server,
           _runtime_servers s0 !! sid = Some server ->
           In (summary_of server) (servers r.1.1)
           /\ In (summary_of server) (listed_runtime_servers r.1.1))
    /\ (forall sid server,
           _registered_servers s0 !! sid = Some server ->
           include_inactive = true \/ status server = ACTIVE ->
           In (summary_of server) (servers r.1.1))
    /\ (include_inactive = false ->
        forall summary,
          In summary (servers r.1.1) ->
          summary_status summary = ACTIVE
          \/ In summary (listed_runtime_servers r.1.1))
    /\ (include_inactive = true ->
        total_servers r.1.1
        = (size (_registered_servers s0) + size (_runtime_servers s0))%nat).
Proof.
  intros is_ModelType registered_values runtime_values p self include_inactive
    Hreg Hrt r s0. subst r s0.
  unfold get_all_servers.
  destruct (_initialize is_ModelType p self) as [p0 s0]. cbn [fst snd].
  cbn [servers total_servers listed_runtime_servers].
  destruct (values_arrangement registered_values (_registered_servers s0)
              (Hreg _)) as [Hlen_reg Hin_reg].
  destruct (values_arrangement runtime_values (_runtime_servers s0)
              (Hrt _)) as [Hlen_rt Hin_rt].
  split; [reflexivity|]. split; [reflexivity|].
  split; [by rewrite length_map|].
  split.
  { intros sid server Hs.
    assert (In (summary_of server)
              (map summary_of (runtime_values (_runtime_servers s0)))) as Hin.
    { apply in_map, Hin_rt. by exists sid. }
    split; [apply in_or_app; by right | exact Hin]. }
  split.
  { intros sid server Hs Hshown. apply in_or_app. left.
    apply in_map, filter_In. split; [apply Hin_reg; by exists sid|].
    destruct Hshown as [-> | Hactive]; [reflexivity|].
    rewrite bool_decide_eq_true_2 by exact Hactive. apply orb_true_r. }
  split.
  { intros -> summary Hin. apply in_app_or in Hin as [Hin|Hin]; [left | by right].
    apply in_map_iff in Hin as (server & <- & Hin).
    apply filter_In in Hin as [_ Hactive]. cbn [orb] in Hactive.
    by apply bool_decide_eq_true in Hactive. }
  intros ->. rewrite length_app, !length_map.
  rewrite <- Hlen_reg, <- Hlen_rt. f_equal.
  clear. induction (registered_values (_registered_servers s0)) as [|x l IH];
    simpl in *; [reflexivity | by f_equal].
Qed.

(** One registered inactive server and one runtime server, listed without
    the inactive ones. *)
Lemma get_all_servers_listing_witness :
  let st :=
    run openai_compatible_only
      (process_with [("MODEL_SERVER_URL", "http://a:8000")])
      [Register (registration_of "b" "http://b:9000");
       Update "b" (update_status_to INACTIVE)] in
  let r :=
    get_all_servers openai_compatible_only values_in_key_order
      values_in_key_order st.1 st.2 false in
  map summary_server_id (servers r.1.1) = ["default"]
  /\ total_servers r.1.1 = length (servers r.1.1)
  /\ length (listed_runtime_servers r.1.1)
     = size (_runtime_servers (_initialize openai_compatible_only st.1 st.2).2).
Proof.
  cbv zeta.
  pose proof
    (get_all_servers_listing openai_compatible_only values_in_key_order
       values_in_key_order
       (run openai_compatible_only
          (process_with [("MODEL_SERVER_URL", "http://a:8000")])
          [Register (registration_of "b" "http://b:9000");
           Update "b" (update_status_to INACTIVE)]).1
       (run openai_compatible_only
          (process_with [("MODEL_SERVER_URL", "http://a:8000")])
          [Register (registration_of "b" "http://b:9000");
           Update "b" (update_status_to INACTIVE)]).2
       false
       (fun m => Permutation_refl (values_in_key_order m))
       (fun m => Permutation_refl (values_in_key_order m))) as H.
  cbv zeta in H. destruct H as (_ & Htotal & Hlen & _).
  split; [vm_compute; reflexivity|].
  split; [exact Htotal | exact Hlen].
Defined.

(** ** Parsing of ISO 8601 strings *)

Section ParseIso.

Import DatetimeUtils.

Context {civil tz : Type} (UTC : tz)
  (fromisoformat : string -> pydatetime civil tz + string).

Lemma drop_last_append_char (s : string) (c : ascii) :
  drop_last (s +:+ String c EmptyString) = s.
Proof.
  induction s as [|d s IH]; [reflexivity|].
  change (String d s +:+ String c "") with (String d (s +:+ String c "")).
  cbn [drop_last]. rewrite IH. by destruct s.
Qed.

Lemma append_nonempty (s t : string) : t <> "" -> s +:+ t <> "".
Proof. destruct s; [done | discriminate]. Qed.

Lemma not_endswith_Z_offset (s : string) :
  PyStr.endswith (s +:+ "+00:00") "Z" = false.
Proof.
  induction s as [|d s IH]; [reflexivity|].
  change (String d s +:+ "+00:00") with (String d (s +:+ "+00:00")).
  cbn [PyStr.endswith]. rewrite IH.
  destruct (String.eqb (String d (s +:+ "+00:00")) "Z") eqn:E; [|reflexivity].
  apply String.eqb_eq in E. injection E as _ E.
  by destruct s.
Qed.

Lemma normalise_Z_suffix (s : string) :
  normalise_Z (s +:+ "Z") = s +:+ "+00:00"
  /\ normalise_Z (s +:+ "+00:00") = s +:+ "+00:00".
Proof.
  unfold normalise_Z.
  rewrite endswith_append, drop_last_append_char, not_endswith_Z_offset.
  by split.
Qed.

End ParseIso.

(** A final [Z] is read as the offset [+00:00]: for every string [s],
    [parse_iso_datetime] of [s] followed by [Z] and of [s] followed by
    [+00:00] return the same value, or raise the same error with the same
    message. *)
Theorem parse_iso_datetime_Z_suffix :
  forall (civil tz : Type) (UTC : tz)
         (fromisoformat : string -> DatetimeUtils.pydatetime civil tz + string)
         (s : string),
    DatetimeUtils.parse_iso_datetime UTC fromisoformat (s +:+ "Z")
    = DatetimeUtils.parse_iso_datetime UTC fromisoformat (s +:+ "+00:00").
Proof.
  intros civil tz UTC fromisoformat s.
  unfold DatetimeUtils.parse_iso_datetime.
  destruct (normalise_Z_suffix s) as [-> ->].
  rewrite !truthy_nonempty by (apply append_nonempty; discriminate).
  reflexivity.
Qed.

(** [parse_iso_datetime] raises for the empty string; for any other string
    it returns exactly the value [datetime.fromisoformat] gives for the
    string with a final [Z] replaced (the second attempt, which would attach
    UTC to a value without [tzinfo], is made on the same string and is never
    the one that returns, so a string without offset yields a value without
    [tzinfo]); when [fromisoformat] fails it raises a [ValueError] that
    names the replaced string and the message of the failure. *)
Theorem parse_iso_datetime_result :
  forall (civil tz : Type) (UTC : tz)
         (fromisoformat : string -> DatetimeUtils.pydatetime civil tz + string)
         (s : string),
    (s = "" ->
     DatetimeUtils.parse_iso_datetime UTC fromisoformat s
     = Raised (ValueError "Empty datetime string"))
    /\ (s <> "" ->
        forall dt,
          fromisoformat (DatetimeUtils.normalise_Z s) = inl dt ->
          DatetimeUtils.parse_iso_datetime UTC fromisoformat s = Returned dt)
    /\ (s <> "" ->
        forall e,
          fromisoformat (DatetimeUtils.normalise_Z s) = inr e ->
          DatetimeUtils.parse_iso_datetime UTC fromisoformat s
          = Raised (ValueError
                      ("Unable to parse datetime string '"
                       +:+ DatetimeUtils.normalise_Z s +:+ "': " +:+ e))).
Proof.
  intros civil tz UTC fromisoformat s.
  unfold DatetimeUtils.parse_iso_datetime.
  split; [intros ->; reflexivity|].
  split.
  { intros Hs dt Hdt. rewrite truthy_nonempty by exact Hs. cbn [negb].
    by rewrite Hdt. }
  intros Hs e He. rewrite truthy_nonempty by exact Hs. cbn [negb].
  by rewrite !He.
Qed.

(** ** Timestamps under a clock that never goes back *)

Section Timestamps.

Variable is_ModelType : string -> bool.

Lemma clock_never_back_from c n : clock_never_back c -> c 0%nat <= c n.
Proof.
  intros Hc. induction n as [|n IH]; [lia|]. specialize (Hc n). lia.
Qed.

Lemma stamped_before_later now now' m :
  now <= now' -> stamped_before now m -> stamped_before now' m.
Proof.
  intros Hle Hm sid server Hs. destruct (Hm sid server Hs). lia.
Qed.

Lemma stamped_before_insert now m sid server :
  created_at server <= updated_at server -> updated_at server <= now ->
  stamped_before now m -> stamped_before now (<[sid := server]> m).
Proof.
  intros Hc Hu Hm k s'. destruct (decide (sid = k)) as [->|Hne].
  - rewrite lookup_insert_eq. by intros [= <-].
  - rewrite lookup_insert_ne by done. apply Hm.
Qed.

Lemma stamped_before_delete now m sid :
  stamped_before now m -> stamped_before now (delete sid m).
Proof.
  intros Hm k s'. destruct (decide (sid = k)) as [->|Hne].
  - by rewrite lookup_delete_eq.
  - rewrite lookup_delete_ne by done. apply Hm.
Qed.

Lemma store_stamped aux (c : Clock) m sid server :
  clock_never_back c -> stamped_before (c 0%nat) m ->
  stamped_before (c 0%nat) aux ->
  created_at server = c 0%nat -> updated_at server = c 1%nat ->
  clock_never_back (fun n => c (S (S n)))
  /\ stamped_before (c 2%nat) (<[sid := server]> m)
  /\ stamped_before (c 2%nat) aux.
Proof.
  intros Hc Hm Haux Hcr Hup.
  pose proof (Hc 0%nat). pose proof (Hc 1%nat).
  split; [intros n; apply Hc|]. split.
  - apply stamped_before_insert; [lia | lia |].
    apply (stamped_before_later (c 0%nat)); [lia | exact Hm].
  - apply (stamped_before_later (c 0%nat)); [lia | exact Haux].
Qed.

Lemma load_simple_stamped aux st :
  loader_stamped aux st -> loader_stamped aux (load_simple is_ModelType st).
Proof.
  destruct st as [p m]. unfold loader_stamped, load_simple. simpl.
  intros (Hc & Hm & Haux).
  destruct (getenv p "MODEL_SERVER_URL") as [u|]; [|done].
  destruct (PyStr.truthy u); [|done].
  destruct (PyStr.truthy (PyStr.strip u)); [|done].
  destruct (ModelType_of is_ModelType _); simpl;
    by apply (store_stamped aux (clock p)).
Qed.

Lemma namespaced_step_stamped aux st item :
  loader_stamped aux st ->
  loader_stamped aux (namespaced_step is_ModelType st item).
Proof.
  destruct st as [p m], item as [env_var env_value].
  unfold loader_stamped, namespaced_step. simpl. intros (Hc & Hm & Haux).
  namespaced_guards ltac:(done).
  destruct (ModelType_of is_ModelType _); simpl;
    by apply (store_stamped aux (clock p)).
Qed.

Lemma legacy_step_stamped aux st item :
  loader_stamped aux st ->
  loader_stamped aux (legacy_step is_ModelType st item).
Proof.
  destruct st as [p m], item as [env_var env_value].
  unfold loader_stamped, legacy_step. simpl. intros (Hc & Hm & Haux).
  legacy_guards ltac:(done).
  simpl. by apply (store_stamped aux (clock p)).
Qed.

Lemma load_servers_stamped aux p :
  clock_never_back (clock p) -> stamped_before (clock p 0%nat) aux ->
  loader_stamped aux (load_servers is_ModelType p).
Proof.
  intros Hc Haux. unfold load_servers.
  apply (fold_left_preserves (loader_stamped aux));
    [intros; by apply legacy_step_stamped|].
  apply (fold_left_preserves (loader_stamped aux));
    [intros; by apply namespaced_step_stamped|].
  apply load_simple_stamped. split; [exact Hc|]. split; [|exact Haux].
  intros sid server H. simpl in H. by rewrite lookup_empty in H.
Qed.

Lemma _initialize_stamped p self :
  registry_stamped (p, self) ->
  registry_stamped (_initialize is_ModelType p self).
Proof.
  intros Hs. unfold _initialize.
  destruct (_initialized self); [exact Hs|].
  destruct Hs as (Hc & Hr & Ht). simpl in Hc, Hr, Ht.
  rewrite _load_runtime_servers_spec.
  destruct (load_servers_stamped (_registered_servers self) p Hc Hr)
    as (Hc' & Hm' & Haux').
  split; [exact Hc'|]. split; [exact Haux' | exact Hm'].
Qed.

Lemma step_stamped st c :
  registry_stamped st -> registry_stamped (step is_ModelType st c).
Proof.
  destruct st as [p self]. intros Hs.
  destruct c as [request|sid request|sid| |items]; unfold step.
  - unfold register_server. apply _initialize_stamped in Hs.
    destruct (_initialize is_ModelType p self) as [p0 s0].
    repeat case_bool_decide; try exact Hs.
    destruct Hs as (Hc & Hr & Ht). simpl in *.
    pose proof (Hc 0%nat).
    split; [intros n; apply Hc|]. split.
    + apply stamped_before_insert; [simpl; lia | simpl; lia |].
      apply (stamped_before_later (clock p0 0%nat)); [simpl; lia | exact Hr].
    + apply (stamped_before_later (clock p0 0%nat)); [simpl; lia | exact Ht].
  - unfold update_server. apply _initialize_stamped in Hs.
    destruct (_initialize is_ModelType p self) as [p0 s0].
    case_bool_decide; [exact Hs|].
    destruct (_registered_servers s0 !! sid) as [stored|] eqn:E; [|exact Hs].
    destruct Hs as (Hc & Hr & Ht). simpl in *.
    pose proof (Hc 0%nat). destruct (Hr sid stored E).
    split; [intros n; apply Hc|]. split.
    + apply stamped_before_insert; [simpl; lia | simpl; lia |].
      apply (stamped_before_later (clock p0 0%nat)); [simpl; lia | exact Hr].
    + apply (stamped_before_later (clock p0 0%nat)); [simpl; lia | exact Ht].
  - unfold delete_server. apply _initialize_stamped in Hs.
    destruct (_initialize is_ModelType p self) as [p0 s0].
    repeat case_bool_decide; try exact Hs.
    destruct Hs as (Hc & Hr & Ht). simpl in *.
    split; [exact Hc|]. split; [by apply stamped_before_delete | exact Ht].
  - unfold reload_runtime_servers. rewrite _load_runtime_servers_spec.
    destruct Hs as (Hc & Hr & _). simpl in *.
    destruct (load_servers_stamped (_registered_servers self) p Hc Hr)
      as (Hc' & Hm' & Haux').
    split; [exact Hc'|]. split; [exact Haux' | exact Hm'].
  - exact Hs.
Qed.

Lemma run_stamped p calls :
  clock_never_back (clock p) -> registry_stamped (run is_ModelType p calls).
Proof.
  intros Hc. unfold run.
  apply (fold_left_preserves registry_stamped);
    [intros; by apply step_stamped|].
  split; [exact Hc|].
  split; intros sid server H; simpl in H; by rewrite lookup_empty in H.
Qed.

End Timestamps.

(** When the clock never goes back, after any run of register, update,
    delete and reload calls, with any changes of the environment in between,
    every descriptor of the registered and of the runtime namespace was
    created no later than it was last updated. *)
Theorem created_before_updated :
  forall (is_ModelType : string -> bool) (p : Process) (calls : list call)
         (sid : string) (server : ModelServer),
    clock_never_back (clock p) ->
    _registered_servers (run is_ModelType p calls).2 !! sid = Some server
    \/ _runtime_servers (run is_ModelType p calls).2 !! sid = Some server ->
    created_at server <= updated_at server.
Proof.
  intros is_ModelType p calls sid server Hc Hin.
  destruct (run_stamped is_ModelType p calls Hc) as (_ & Hr & Ht).
  destruct Hin as [Hin|Hin]; [by destruct (Hr sid server Hin) |
                              by destruct (Ht sid server Hin)].
Qed.

Lemma created_before_updated_witness :
  let st :=
    run openai_compatible_only
      (process_with [("MODEL_SERVER_URL", "http://a:8000")])
      [Register (registration_of "b" "http://b:9000");
       Update "b" (update_base_url_to "http://b:9001");
       ReloadRuntime] in
  exists server,
    _registered_servers st.2 !! "b" = Some server
    /\ created_at server = 2 /\ updated_at server = 3
    /\ created_at server <= updated_at server.
Proof.
  cbv zeta. eexists. split; [vm_compute; reflexivity|].
  split; [reflexivity|]. split; [reflexivity|].
  apply (created_before_updated openai_compatible_only
           (process_with [("MODEL_SERVER_URL", "http://a:8000")])
           [Register (registration_of "b" "http://b:9000");
            Update "b" (update_base_url_to "http://b:9001");
            ReloadRuntime]
           "b").
  - intros n. simpl. lia.
  - left. reflexivity.
Defined.
